(** * Statistics and comparison engine of the nutrition analyser

    Shallow embedding of [src/src/data_processor.py] ([DataProcessor]).

    - A pandas [DataFrame] as produced by [DataLoader] is a [table]: the
      ordered column names and the ordered rows; the item name is the index
      ([index_col=0]), every other column is numeric.  A cell is [option Q]:
      [None] is pandas' [NaN] (the loader maps ["-"] to it), [Some q] a
      finite number.
    - Python exceptions are the constructors of [exc]; a Python call that
      returns or raises is a [result].
    - A Python [dict] is an association list in insertion order, updated in
      place on an existing key ([dict_set]), as CPython does. *)

From Stdlib Require Import List String ZArith QArith Qround Qminmax Lia Lqa Bool.
Import ListNotations.
Open Scope string_scope.

(** ** Python values and exceptions *)

Inductive exc :=
| KeyError (key : string)
| ValueError (msg : string)
| TypeError (msg : string).

Inductive result (A : Type) :=
| Ok (a : A)
| Err (e : exc).
Arguments Ok {A} a.
Arguments Err {A} e.

(** The scalar values stored in the result dictionaries: a Python [int],
    a finite [numpy.float64], [inf] / [-inf], or [numpy.nan]. *)
Inductive pyval :=
| VInt (z : Z)
| VFloat (x : Q)
| VInf (positive : bool)
| VNaN.

(** The [value] argument of the filters: a finite float or a tuple
    [(lo, hi)] of finite floats ([nan] and [+-inf] values are not
    represented). *)
Inductive operand :=
| Num (q : Q)
| Tup (lo hi : Q).

(** ** Dictionaries *)

Section Dict.
Context {V : Type}.

Fixpoint dict_get (d : list (string * V)) (k : string) : option V :=
  match d with
  | [] => None
  | (k', v) :: d' => if String.eqb k k' then Some v else dict_get d' k
  end.

(** [d[k] = v]: overwrite in place when [k] is present, append otherwise. *)
Fixpoint dict_set (d : list (string * V)) (k : string) (v : V)
  : list (string * V) :=
  match d with
  | [] => [(k, v)]
  | (k', v') :: d' =>
      if String.eqb k k' then (k', v) :: d' else (k', v') :: dict_set d' k v
  end.

End Dict.

Definition mem (x : string) (l : list string) : bool :=
  existsb (String.eqb x) l.

(** ** Tables (pandas DataFrames) *)

Record row := mkRow {
  item : string;                      (* the index: the item name *)
  cells : list (string * option Q)    (* column name -> value or NaN *)
}.

Record table := mkTable {
  columns : list string;
  rows : list row
}.

(** [df.loc[r, c]]; a cell absent from the row reads as NaN. *)
Definition cell (r : row) (c : string) : option Q :=
  match dict_get (cells r) c with
  | Some v => v
  | None => None
  end.

(** [df[c]]: the column as a series, or [KeyError c]. *)
Definition column (df : table) (c : string) : result (list (option Q)) :=
  if mem c (columns df) then Ok (map (fun r => cell r c) (rows df))
  else Err (KeyError c).

(** [df[mask]]: boolean indexing; a new frame with the same columns and the
    rows whose mask entry is [True], in their order. *)
Fixpoint select (rs : list row) (m : list bool) : list row :=
  match rs, m with
  | r :: rs', b :: m' => if b then r :: select rs' m' else select rs' m'
  | _, _ => []
  end.

Definition mask_frame (df : table) (m : list bool) : table :=
  mkTable (columns df) (select (rows df) m).

(** ** Series comparisons

    A comparison of a series with a scalar is elementwise and [NaN] compares
    false.  With a tuple, pandas compares elementwise against the tuple's
    items and raises when the lengths differ. *)

Definition cmp_scalar (f : Q -> Q -> bool) (s : list (option Q)) (q : Q)
  : list bool :=
  map (fun o => match o with Some v => f v q | None => false end) s.

Definition cmp_operand (f : Q -> Q -> bool) (s : list (option Q)) (v : operand)
  : result (list bool) :=
  match v with
  | Num q => Ok (cmp_scalar f s q)
  | Tup a b =>
      match s with
      | [x; y] => Ok (app (cmp_scalar f [x] a) (cmp_scalar f [y] b))
      | _ => Err (ValueError "Lengths must match to compare")
      end
  end.

(** [Series.between(left, right)] with the default [inclusive="both"]. *)
Definition between (s : list (option Q)) (lo hi : Q) : list bool :=
  map (fun o => match o with
                | Some v => Qle_bool lo v && Qle_bool v hi
                | None => false
                end) s.

Definition py_gt (x y : Q) : bool := negb (Qle_bool x y).
Definition py_lt (x y : Q) : bool := negb (Qle_bool y x).
Definition py_eq (x y : Q) : bool := Qeq_bool x y.

(** ** [DataProcessor.filter_data] (lines 244-255)

    [df[nutrient]] is evaluated before the operand is used, so a missing
    column raises [KeyError] first.  For ["between"], [value[0]] on a float
    raises [TypeError].  An unrecognised operator prints a message and
    returns [df] itself. *)

Definition filter_data (df : table) (nutrient : string) (operator : string)
  (value : operand) : result table :=
  let by_cmp f :=
    match column df nutrient with
    | Err e => Err e
    | Ok s =>
        match cmp_operand f s value with
        | Err e => Err e
        | Ok m => Ok (mask_frame df m)
        end
    end in
  if String.eqb operator ">" then by_cmp py_gt
  else if String.eqb operator "<" then by_cmp py_lt
  else if String.eqb operator "==" then by_cmp py_eq
  else if String.eqb operator "between" then
    match column df nutrient with
    | Err e => Err e
    | Ok s =>
        match value with
        | Tup lo hi => Ok (mask_frame df (between s lo hi))
        | Num _ => Err (TypeError "'float' object is not subscriptable")
        end
    end
  else Ok df.

(** ** [DataProcessor] state (lines 27-44) *)

Record processor := mkProcessor {
  datasets : list (string * table);   (* self.datasets *)
  categories : list string            (* self.categories *)
}.

Definition init : processor := mkProcessor [] [].

(** [add_datasets(catergory, df)]: the dictionary entry is set (overwritten
    in place when present) and the name is appended to the list. *)
Definition add_datasets (st : processor) (catergory : string) (df : table)
  : processor :=
  mkProcessor (dict_set (datasets st) catergory df)
              (categories st ++ [catergory])%list.

(** A processor built by a sequence of [add_datasets] calls from [init]. *)
Definition register_all (regs : list (string * table)) : processor :=
  fold_left (fun st '(c, df) => add_datasets st c df) regs init.

(** ** [filter_dataset] (lines 195-218) and [filter_datasets] (166-192)

    Both read the processor and return it as it was: the state is threaded
    explicitly so that the frame is part of the statement. *)

Definition filter_dataset (st : processor) (catergory nutrient operator : string)
  (value : operand) : result table * processor :=
  if negb (mem catergory (categories st)) then
    (Err (ValueError ("'" ++ catergory ++ "' not found in datasets")), st)
  else
    match dict_get (datasets st) catergory with
    | Some df => (filter_data df nutrient operator value, st)
    | None => (Err (KeyError catergory), st)
    end.

Definition filter_datasets (st : processor) (nutrient operator : string)
  (value : operand) (cats : option (list string))
  : result (list (string * table)) * processor :=
  let cs := match cats with Some l => l | None => categories st end in
  let fix go (cs : list string) (acc : list (string * table)) :=
    match cs with
    | [] => Ok acc
    | c :: cs' =>
        match dict_get (datasets st) c with
        | None => Err (KeyError c)
        | Some df =>
            match filter_data df nutrient operator value with
            | Err e => Err e
            | Ok t => go cs' (dict_set acc c t)
            end
        end
    end in
  (go cs [], st).

(** ** Series statistics

    The statistics of a column skip [NaN] ([skipna=True]).  Numbers are
    rationals; numpy's square root is a parameter of the section, so that
    what is proved holds whatever floating square root is used. *)

Definition valid (s : list (option Q)) : list Q :=
  flat_map (fun o => match o with Some v => [v] | None => [] end) s.

Definition qsum (xs : list Q) : Q := fold_left Qplus xs 0.

Fixpoint insert_q (x : Q) (xs : list Q) : list Q :=
  match xs with
  | [] => [x]
  | y :: ys => if Qle_bool x y then x :: xs else y :: insert_q x ys
  end.

Definition sort_q (xs : list Q) : list Q := fold_right insert_q [] xs.

Definition qmin (xs : list Q) : pyval :=
  match xs with
  | [] => VNaN
  | x :: xs' => VFloat (fold_left Qmin xs' x)
  end.

Definition qmax (xs : list Q) : pyval :=
  match xs with
  | [] => VNaN
  | x :: xs' => VFloat (fold_left Qmax xs' x)
  end.

Definition qmean (xs : list Q) : pyval :=
  match xs with
  | [] => VNaN
  | _ => VFloat (qsum xs / inject_Z (Z.of_nat (List.length xs)))
  end.

(** [Series.quantile(p)], default [interpolation='linear']. *)
Definition quantile (xs : list Q) (p : Q) : pyval :=
  let ys := sort_q xs in
  match ys with
  | [] => VNaN
  | y0 :: _ =>
      let h := inject_Z (Z.of_nat (List.length ys - 1)) * p in
      let j := Qfloor h in
      let g := h - inject_Z j in
      let lo := nth (Z.to_nat j) ys y0 in
      let hi := nth (S (Z.to_nat j)) ys lo in
      VFloat (lo + g * (hi - lo))
  end.

(** [round(x, 2)] on a [numpy.float64]: round half to even at two decimals;
    [NaN] stays [NaN]. *)
Definition round_half_even (q : Q) : Z :=
  let f := Qfloor q in
  let r := q - inject_Z f in
  if Qeq_bool r (1 # 2) then (if Z.even f then f else f + 1)
  else if Qle_bool r (1 # 2) then f else f + 1.

Definition round2 (v : pyval) : pyval :=
  match v with
  | VFloat x => VFloat (inject_Z (round_half_even (x * 100)) / 100)
  | v => v
  end.

Section Stats.
Variable sqrt_f : Q -> Q.

(** [Series.std()]: sample standard deviation ([ddof=1]). *)
Definition qstd (xs : list Q) : pyval :=
  match xs with
  | [] | [_] => VNaN
  | _ =>
      let n := inject_Z (Z.of_nat (List.length xs)) in
      let m := qsum xs / n in
      VFloat (sqrt_f (qsum (map (fun x => (x - m) * (x - m)) xs) / (n - 1)))
  end.

(** The frame [df.describe()] builds: one row per statistic, one entry per
    column. *)
Definition describe_frame (df : table) : list (string * list (string * pyval)) :=
  let col f := map (fun c => (c, f (valid (map (fun r => cell r c) (rows df)))))
                   (columns df) in
  [("count", col (fun xs => VFloat (inject_Z (Z.of_nat (List.length xs)))));
   ("mean", col qmean); ("std", col qstd); ("min", col qmin);
   ("25%", col (fun xs => quantile xs (1 # 4)));
   ("50%", col (fun xs => quantile xs (1 # 2)));
   ("75%", col (fun xs => quantile xs (3 # 4)));
   ("max", col qmax)].

(** [df.describe()]: pandas raises [ValueError] on a frame without columns
    (the item name is the index, not a column). *)
Definition describe (df : table) : result (list (string * list (string * pyval))) :=
  match columns df with
  | [] => Err (ValueError "Cannot describe a DataFrame without columns")
  | _ => Ok (describe_frame df)
  end.

(** [a / b] on two [numpy.float64] sums: [x / 0] is [+-inf], [0 / 0] is
    [nan] (numpy warns, it does not raise). *)
Definition py_div (a b : Q) : pyval :=
  if Qeq_bool b 0 then
    (if Qeq_bool a 0 then VNaN else VInf (negb (Qle_bool a 0)))
  else VFloat (a / b).

(** [df[c].sum()]: the sum of the non-[NaN] values, [0] when none.  The
    sum is exact; numpy's float64 rounding of it is not modelled. *)
Definition col_sum (df : table) (c : string) : Q :=
  qsum (valid (map (fun r => cell r c) (rows df))).

Record cat_stats := mkCatStats {
  describe_of : list (string * list (string * pyval));   (* 'describe' *)
  ratio : list (string * pyval)                          (* 'ratio' *)
}.

(** The ratio block of lines 80-87. *)
Definition ratios (nutrient : table) : list (string * pyval) :=
  if mem "Fat" (columns nutrient) && mem "Protein" (columns nutrient)
     && mem "Carb" (columns nutrient) then
    let fat_sum := col_sum nutrient "Fat" in
    let protein_sum := col_sum nutrient "Protein" in
    let carb_sum := col_sum nutrient "Carb" in
    dict_set (dict_set (dict_set []
      "fat_to_protein" (py_div fat_sum protein_sum))
      "protein_to_carb" (py_div protein_sum carb_sum))
      "carb_to_fat" (py_div carb_sum fat_sum)
  else [].

(** [calculate_descriptive_stats()] (lines 69-89).  The loop stops at the
    first [describe()] that raises, and the exception propagates. *)
Definition calculate_descriptive_stats (st : processor)
  : result (list (string * cat_stats)) :=
  fold_left (fun acc '(category, nutrient) =>
               match acc with
               | Err e => Err e
               | Ok stats =>
                   match describe nutrient with
                   | Err e => Err e
                   | Ok d => Ok (dict_set stats category (mkCatStats d (ratios nutrient)))
                   end
               end)
            (datasets st) (Ok []).

(** The nine-field record of lines 139-161 for one category and nutrient. *)
Definition nine_fields (df : table) (nutrient : string)
  : list (string * pyval) :=
  if mem nutrient (columns df) then
    let xs := valid (map (fun r => cell r nutrient) (rows df)) in
    [("count", VInt (Z.of_nat (List.length xs)));
     ("mean", round2 (qmean xs));
     ("median", round2 (quantile xs (1 # 2)));
     ("std", round2 (qstd xs));
     ("min", round2 (qmin xs));
     ("max", round2 (qmax xs));
     ("25%", round2 (quantile xs (1 # 4)));
     ("50%", round2 (quantile xs (1 # 2)));
     ("75%", round2 (quantile xs (3 # 4)))]
  else
    [("count", VNaN); ("mean", VNaN); ("median", VNaN); ("std", VNaN);
     ("min", VNaN); ("max", VNaN); ("25%", VNaN); ("50%", VNaN);
     ("75%", VNaN)].

(** [list(set.intersection(...))] over the column sets (lines 127-128).  Python's set
    order is unspecified; this takes the members in the first table's
    column order. *)
Definition common_columns (ds : list (string * table)) : list string :=
  match ds with
  | [] => []
  | (_, df0) :: _ =>
      filter (fun c => forallb (fun '(_, df) => mem c (columns df)) ds)
             (columns df0)
  end.

(** Lines 126-128: the caller's list, or the common columns. *)
Definition resolve_nutrients (ds : list (string * table))
  (nutrients : option (list string)) : list string :=
  match nutrients with
  | Some l => l
  | None => common_columns ds
  end.

(** [compare_datasets(nutrients=None)] (lines 117-163).  With fewer than
    two datasets it prints a message and returns [None]. *)
Definition compare_datasets (st : processor) (nutrients : option (list string))
  : result (option (list (string * list (string * list (string * pyval))))) :=
  if Nat.ltb (List.length (datasets st)) 2 then Ok None
  else
    let ns := resolve_nutrients (datasets st) nutrients in
    Ok (Some
      (fold_left (fun comparison '(category, df) =>
         fold_left (fun cmp nutrient =>
             dict_set cmp category
               (dict_set (match dict_get cmp category with
                          | Some m => m | None => [] end)
                         nutrient (nine_fields df nutrient)))
           ns (dict_set comparison category []))
         (datasets st) [])).

End Stats.

(** ** Predicates used in the statements *)

Definition recognized (operator : string) : Prop :=
  In operator [">"; "<"; "=="; "between"].

(** Order-preserving sub-list: [l1] keeps some of the items of [l2]. *)
Inductive subseq {A : Type} : list A -> list A -> Prop :=
| subseq_nil : subseq [] []
| subseq_keep x l1 l2 : subseq l1 l2 -> subseq (x :: l1) (x :: l2)
| subseq_drop x l1 l2 : subseq l1 l2 -> subseq l1 (x :: l2).

Definition nine_names : list string :=
  ["count"; "mean"; "median"; "std"; "min"; "max"; "25%"; "50%"; "75%"].

(** A value rounded to two decimals: a multiple of [1/100], or [NaN]. *)
Definition rounded2 (v : pyval) : Prop :=
  match v with
  | VFloat x => exists z : Z, x = inject_Z z / 100
  | VNaN => True
  | _ => False
  end.

Definition float_or_nan (v : pyval) : Prop :=
  v = VNaN \/ exists x, v = VFloat x.

(** The nine-field record of one (category, nutrient) pair: the nine fields
    in order; all [NaN] when the column is absent; otherwise an integer
    count and every other field rounded to two decimals. *)
Definition field_ok (df : table) (n : string) (rec : list (string * pyval))
  : Prop :=
  map fst rec = nine_names /\
  (~ In n (columns df) -> forall k v, In (k, v) rec -> v = VNaN) /\
  (In n (columns df) ->
     (exists z, In ("count", VInt z) rec) /\
     forall k v, In (k, v) rec -> k <> "count" -> rounded2 v).

(** ** Sample menus

    Small tables in the loader's shape, used to run the definitions. *)

Definition menu_row (name : string) (cal fat protein carb : option Q) : row :=
  mkRow name [("Calories", cal); ("Fat", fat); ("Protein", protein);
              ("Carb", carb)].

(** Fat = [2, 4], Protein = [1, 1], Carb = [1, 3] (the spec's ratio example). *)
Definition sample_food : table :=
  mkTable ["Calories"; "Fat"; "Protein"; "Carb"]
    [menu_row "Wrap" (Some 100) (Some 2) (Some 1) (Some 1);
     menu_row "Bagel" (Some 300) (Some 4) (Some 1) (Some 3)].

(** Calories = [100, 300, 500, -]; no Carb column. *)
Definition sample_drinks : table :=
  mkTable ["Calories"; "Fat"; "Protein"]
    [mkRow "Tea" [("Calories", Some 100); ("Fat", Some 0); ("Protein", Some 0)];
     mkRow "Latte" [("Calories", Some 300); ("Fat", Some 5); ("Protein", Some 9)];
     mkRow "Mocha" [("Calories", Some 500); ("Fat", Some 12); ("Protein", Some 10)];
     mkRow "Shot" [("Calories", None); ("Fat", None); ("Protein", None)]].

(** Protein = [0, -]: a zero sum. *)
Definition water_menu : table :=
  mkTable ["Fat"; "Protein"; "Carb"]
    [mkRow "Water" [("Fat", Some 0); ("Protein", Some 0); ("Carb", Some 0)];
     mkRow "Juice" [("Fat", Some 1); ("Protein", None); ("Carb", Some 20)]].

(** A frame with an index and no column. *)
Definition empty_menu : table := mkTable [] [mkRow "Water" []].

Definition sample_regs : list (string * table) :=
  [("food", sample_food); ("drinks", sample_drinks)].

(** An integer square root, to run the statistics on examples. *)
Definition sqrt_floor (q : Q) : Q := inject_Z (Z.sqrt (Qfloor q)).

(** ** The loop of [filter_datasets]

    The local loop of [filter_datasets] as a top-level function, so that it
    can be reasoned about by induction; [filter_datasets_go] shows that it is
    the same loop. *)

Fixpoint filter_go (st : processor) (nutrient operator : string) (value : operand)
  (cs : list string) (acc : list (string * table)) : result (list (string * table)) :=
  match cs with
  | [] => Ok acc
  | c :: cs' =>
      match dict_get (datasets st) c with
      | None => Err (KeyError c)
      | Some df =>
          match filter_data df nutrient operator value with
          | Err e => Err e
          | Ok t => filter_go st nutrient operator value cs' (dict_set acc c t)
          end
      end
  end.

(** ** [DataVisualizer.print_comparison] (src/src/data_visualizer.py, 69-120)

    The tables the method prints, one per metric: [to_print[category][nutrient]
    = comparison_dict[category][nutrient][metric]], for the categories of the
    dictionary and the nutrients of its first category.  A missing key
    raises [KeyError]; [len(None)] raises [TypeError]; an empty dictionary
    prints a message and returns. *)

Definition py_getitem {V : Type} (d : list (string * V)) (k : string) : result V :=
  match dict_get d k with
  | Some v => Ok v
  | None => Err (KeyError k)
  end.

Definition default_metrics : list string :=
  ["count"; "mean"; "std"; "min"; "max"; "25%"; "50%"; "75%"].

Definition comparison := list (string * list (string * list (string * pyval))).

Fixpoint fill_nutrients (cd : comparison) (category metric : string)
  (ns : list string) (acc : list (string * pyval)) : result (list (string * pyval)) :=
  match ns with
  | [] => Ok acc
  | n :: ns' =>
      match py_getitem cd category with
      | Err e => Err e
      | Ok entry =>
          match py_getitem entry n with
          | Err e => Err e
          | Ok fields =>
              match py_getitem fields metric with
              | Err e => Err e
              | Ok v => fill_nutrients cd category metric ns' (dict_set acc n v)
              end
          end
      end
  end.

Fixpoint fill_categories (cd : comparison) (metric : string) (cs ns : list string)
  (to_print : list (string * list (string * pyval)))
  : result (list (string * list (string * pyval))) :=
  match cs with
  | [] => Ok to_print
  | c :: cs' =>
      match fill_nutrients cd c metric ns [] with
      | Err e => Err e
      | Ok r => fill_categories cd metric cs' ns (dict_set to_print c r)
      end
  end.

Fixpoint fill_metrics (cd : comparison) (ms cs ns : list string)
  (printed : list (string * list (string * list (string * pyval))))
  : result (list (string * list (string * list (string * pyval)))) :=
  match ms with
  | [] => Ok printed
  | m :: ms' =>
      match fill_categories cd m cs ns [] with
      | Err e => Err e
      | Ok tp => fill_metrics cd ms' cs ns (printed ++ [(m, tp)])%list
      end
  end.

Definition print_comparison (comparison_dict : option comparison)
  (metrics : option (list string))
  : result (list (string * list (string * list (string * pyval)))) :=
  match comparison_dict with
  | None => Err (TypeError "object of type 'NoneType' has no len()")
  | Some [] => Ok []
  | Some (((_, first) :: _) as cd) =>
      let ms := match metrics with Some l => l | None => default_metrics end in
      fill_metrics cd ms (map fst cd) (map fst first) []
  end.

(** Composing two filters on the same column: when the first succeeds the
    second runs on its result; on a failure the error is passed on. *)
Definition then_filter (r : result table) (nutrient operator : string)
  (value : operand) : result table :=
  match r with
  | Ok t => filter_data t nutrient operator value
  | Err e => Err e
  end.

(** A row whose value in the column is not missing. *)
Definition has_value (nutrient : string) (r : row) : bool :=
  match cell r nutrient with Some _ => true | None => false end.

(** [len(df.columns) > 0]: the frames [describe()] accepts. *)
Definition has_columns (df : table) : bool :=
  match columns df with [] => false | _ => true end.

(** ** [generate_stats] (src/main.py, 20-46), up to the printed comparison

    Registers the two menus, computes the statistics and the comparison and
    prints the comparison for [mean] and [min].  [print_descriptive_stats]
    only formats the dictionary it iterates and is not modelled, nor are the
    charts.  The result is the list of printed comparison tables. *)

Definition generate_stats (sqrt_f : Q -> Q) (food drinks : table)
  : result (list (string * list (string * list (string * pyval)))) :=
  let data_processor := add_datasets (add_datasets init "food" food) "drinks" drinks in
  match calculate_descriptive_stats sqrt_f data_processor with
  | Err e => Err e
  | Ok _descrp_stats =>
      match compare_datasets sqrt_f data_processor None with
      | Err e => Err e
      | Ok comparison_stats => print_comparison comparison_stats (Some ["mean"; "min"])
      end
  end.

(** ** Dictionary lemmas *)

Section DictLemmas.
Context {V : Type}.

Lemma dict_get_set_same (d : list (string * V)) k v :
  dict_get (dict_set d k v) k = Some v.
Proof.
  induction d as [|[k' v'] d IH]; simpl.
  - now rewrite String.eqb_refl.
  - destruct (String.eqb k k') eqn:E; simpl; rewrite E; auto.
Qed.

Lemma dict_set_set (d : list (string * V)) k v1 v2 :
  dict_set (dict_set d k v1) k v2 = dict_set d k v2.
Proof.
  induction d as [|[k' v'] d IH]; simpl.
  - now rewrite String.eqb_refl.
  - destruct (String.eqb k k') eqn:E; simpl; rewrite E; congruence.
Qed.

Lemma dict_set_keys (d : list (string * V)) k v x :
  In x (map fst (dict_set d k v)) <-> x = k \/ In x (map fst d).
Proof.
  induction d as [|[k' v'] d IH]; simpl.
  - intuition congruence.
  - destruct (String.eqb k k') eqn:E; simpl.
    + apply String.eqb_eq in E; subst; intuition congruence.
    + rewrite IH; intuition congruence.
Qed.

Lemma dict_set_in (d : list (string * V)) k v k' v' :
  In (k', v') (dict_set d k v) -> (k', v') = (k, v) \/ In (k', v') d.
Proof.
  induction d as [|[k0 v0] d IH]; simpl.
  - intuition.
  - destruct (String.eqb k k0) eqn:E; simpl.
    + apply String.eqb_eq in E; subst. intros [H|H]; [left|]; auto;
      inversion H; subst; auto.
    + intros [H|H]; auto. destruct (IH H); auto.
Qed.

Lemma dict_set_nodup (d : list (string * V)) k v :
  NoDup (map fst d) -> NoDup (map fst (dict_set d k v)).
Proof.
  induction d as [|[k' v'] d IH]; simpl; intros Hd.
  - constructor; [easy | constructor].
  - inversion Hd as [|? ? Hnin Hd']; subst.
    destruct (String.eqb k k') eqn:E; simpl.
    + constructor; auto.
    + constructor; auto. rewrite dict_set_keys.
      apply String.eqb_neq in E. intuition.
Qed.

Lemma dict_set_fresh (d : list (string * V)) k v :
  ~ In k (map fst d) -> dict_set d k v = (d ++ [(k, v)])%list.
Proof.
  induction d as [|[k' v'] d IH]; simpl; intros Hn; auto.
  destruct (String.eqb k k') eqn:E.
  - apply String.eqb_eq in E; subst; tauto.
  - rewrite IH; auto.
Qed.

Lemma dict_get_in (d : list (string * V)) k v :
  NoDup (map fst d) -> (dict_get d k = Some v <-> In (k, v) d).
Proof.
  induction d as [|[k' v'] d IH]; simpl; intros Hd.
  - split; [discriminate | tauto].
  - inversion Hd as [|? ? Hnin Hd']; subst.
    destruct (String.eqb k k') eqn:E.
    + apply String.eqb_eq in E; subst. split.
      * intros H; inversion H; auto.
      * intros [H|H]; [inversion H; auto|].
        exfalso; apply Hnin; apply (in_map fst) in H; exact H.
    + rewrite IH by auto. apply String.eqb_neq in E. split; auto.
      intros [H|H]; [inversion H; congruence | auto].
Qed.

(** Folding [d[k] = g(k)] over a list of keys. *)
Lemma fold_set_fn (g : string -> V) (ns : list string) acc :
  NoDup (map fst acc) ->
  (forall k v, In (k, v) acc -> v = g k) ->
  let r := fold_left (fun m n => dict_set m n (g n)) ns acc in
  NoDup (map fst r) /\
  (forall k v, In (k, v) r -> v = g k) /\
  (forall k, In k (map fst r) <-> In k (map fst acc) \/ In k ns).
Proof.
  revert acc; induction ns as [|n ns IH]; simpl; intros acc Hnd Hv.
  - split; [|split]; auto. intros x; simpl; tauto.
  - cbv zeta. destruct (IH (dict_set acc n (g n))) as (H1 & H2 & H3).
    + now apply dict_set_nodup.
    + intros k v Hin. destruct (dict_set_in _ _ _ _ _ Hin) as [E|E]; auto.
      inversion E; subst; auto.
    + split; [|split]; auto. intros x. rewrite H3, dict_set_keys. simpl.
      intuition congruence.
Qed.

End DictLemmas.

Lemma mem_In x l : mem x l = true <-> In x l.
Proof.
  unfold mem; rewrite existsb_exists; split.
  - intros (y & Hy & E); apply String.eqb_eq in E; subst; auto.
  - intros H; exists x; split; auto; apply String.eqb_refl.
Qed.

Lemma mem_notIn x l : mem x l = false <-> ~ In x l.
Proof.
  rewrite <- mem_In; destruct (mem x l); split; congruence.
Qed.

(** Folding a step that appends every fresh key. *)
Lemma fold_fresh {B : Type}
  (step : list (string * B) -> string * table -> list (string * B))
  (f : table -> B) (d : list (string * table)) acc :
  (forall acc c df, ~ In c (map fst acc) -> step acc (c, df) = (acc ++ [(c, f df)])%list) ->
  NoDup (map fst d) ->
  (forall k, In k (map fst d) -> ~ In k (map fst acc)) ->
  fold_left step d acc = (acc ++ map (fun '(c, df) => (c, f df)) d)%list.
Proof.
  intros Hstep; revert acc; induction d as [|[c df] d IH]; simpl; intros acc Hnd Hfr.
  - now rewrite app_nil_r.
  - inversion Hnd as [|? ? Hnin Hnd']; subst.
    rewrite Hstep by auto. rewrite IH; auto.
    + now rewrite <- app_assoc.
    + intros k Hk. rewrite map_app, in_app_iff; simpl. intros [H|[H|H]].
      * apply (Hfr k); auto.
      * subst; auto.
      * exact H.
Qed.

(** ** Registration *)

Lemma register_all_snoc regs c df :
  register_all (regs ++ [(c, df)])%list = add_datasets (register_all regs) c df.
Proof. unfold register_all; now rewrite fold_left_app. Qed.

(** The dictionary keys never repeat and name the same categories as the
    list; the list is every registered name in call order. *)
Lemma register_all_inv regs :
  NoDup (map fst (datasets (register_all regs))) /\
  (forall c, In c (categories (register_all regs)) <->
             In c (map fst (datasets (register_all regs)))) /\
  categories (register_all regs) = map fst regs.
Proof.
  induction regs as [|[c df] regs IH] using rev_ind.
  - simpl; repeat split; auto; constructor.
  - rewrite register_all_snoc. destruct IH as (H1 & H2 & H3).
    unfold add_datasets; simpl. split; [|split].
    + now apply dict_set_nodup.
    + intros x. rewrite in_app_iff, dict_set_keys, H2; simpl; intuition congruence.
    + rewrite H3, map_app; reflexivity.
Qed.

(** ** Statistics produce a float or NaN *)

Lemma round2_rounded v : float_or_nan v -> rounded2 (round2 v).
Proof.
  intros [->|[x ->]]; simpl; auto. eexists; reflexivity.
Qed.

Lemma qmean_fn xs : float_or_nan (qmean xs).
Proof. destruct xs; [left | right; eexists]; reflexivity. Qed.

Lemma qmin_fn xs : float_or_nan (qmin xs).
Proof. destruct xs; [left | right; eexists]; reflexivity. Qed.

Lemma qmax_fn xs : float_or_nan (qmax xs).
Proof. destruct xs; [left | right; eexists]; reflexivity. Qed.

Lemma quantile_fn xs p : float_or_nan (quantile xs p).
Proof.
  unfold quantile; destruct (sort_q xs); [left | right; eexists]; reflexivity.
Qed.

Lemma qstd_fn sqrt_f xs : float_or_nan (qstd sqrt_f xs).
Proof.
  destruct xs as [|x [|y xs]]; [left | left | right; eexists]; reflexivity.
Qed.

Lemma nine_fields_ok sqrt_f df n : field_ok df n (nine_fields sqrt_f df n).
Proof.
  unfold field_ok, nine_fields.
  destruct (mem n (columns df)) eqn:Hm.
  - apply mem_In in Hm. split; [reflexivity|split]; [tauto|].
    intros _. split.
    + eexists; left; reflexivity.
    + intros k v Hin Hk; simpl in Hin.
      repeat (destruct Hin as [Hin|Hin];
              [inversion Hin; subst; try congruence;
               apply round2_rounded;
               first [apply qmean_fn | apply qmin_fn | apply qmax_fn
                     | apply quantile_fn | apply qstd_fn] |]).
      destruct Hin.
  - apply mem_notIn in Hm. split; [reflexivity|split]; [|tauto].
    intros _ k v Hin; simpl in Hin.
    repeat (destruct Hin as [Hin|Hin]; [inversion Hin; reflexivity|]).
    destruct Hin.
Qed.

(** ** Shape of the comparison *)

Lemma compare_inner sqrt_f df ns category C m :
  fold_left (fun cmp nutrient =>
      dict_set cmp category
        (dict_set (match dict_get cmp category with Some m => m | None => [] end)
                  nutrient (nine_fields sqrt_f df nutrient)))
    ns (dict_set C category m)
  = dict_set C category
      (fold_left (fun m n => dict_set m n (nine_fields sqrt_f df n)) ns m).
Proof.
  revert m; induction ns as [|n ns IH]; intros m; simpl; auto.
  rewrite dict_get_set_same, dict_set_set. apply IH.
Qed.

Lemma compare_datasets_eq sqrt_f st nutrients :
  NoDup (map fst (datasets st)) ->
  (2 <= List.length (datasets st))%nat ->
  compare_datasets sqrt_f st nutrients =
  Ok (Some (map (fun '(c, df) =>
                   (c, fold_left (fun m n => dict_set m n (nine_fields sqrt_f df n))
                         (resolve_nutrients (datasets st) nutrients) []))
              (datasets st))).
Proof.
  intros Hnd Hlen. unfold compare_datasets.
  replace (Nat.ltb (List.length (datasets st)) 2) with false
    by (symmetry; apply Nat.ltb_ge; exact Hlen).
  do 2 f_equal.
  erewrite fold_fresh; [reflexivity | | exact Hnd | simpl; tauto].
  intros acc c df Hfr. cbv beta iota.
  rewrite compare_inner. now apply dict_set_fresh.
Qed.

Lemma common_columns_spec ds n :
  ds <> [] ->
  (In n (common_columns ds) <->
   forall c df, In (c, df) ds -> In n (columns df)).
Proof.
  destruct ds as [|[c0 df0] ds]; [congruence|]. intros _.
  unfold common_columns. rewrite filter_In, forallb_forall. split.
  - intros [_ H] c df Hin. specialize (H _ Hin); simpl in H.
    now apply mem_In.
  - intros H. split; [apply (H c0); left; reflexivity|].
    intros [c df] Hin; apply mem_In; exact (H _ _ Hin).
Qed.

(** ** Boolean indexing *)

Lemma subseq_nil_l {A : Type} (l : list A) : subseq [] l.
Proof. induction l; constructor; auto. Qed.

Lemma select_subseq (rs : list row) m : subseq (select rs m) rs.
Proof.
  revert m; induction rs as [|r rs IH]; intros [|b m]; simpl;
    try apply subseq_nil_l.
  destruct b; constructor; auto.
Qed.

Lemma select_map (h : row -> bool) rs : select rs (map h rs) = filter h rs.
Proof. induction rs as [|r rs IH]; simpl; auto. destruct (h r); f_equal; auto. Qed.

Lemma select_forall2 (P : row -> Prop) rs m :
  Forall2 (fun r b => b = true -> P r) rs m ->
  forall r, In r (select rs m) -> P r.
Proof.
  induction 1 as [|r b rs m Hb _ IH]; simpl; [tauto|].
  destruct b; simpl; auto. intros r' [<-|H]; auto.
Qed.

Lemma guarded_some (o : option Q) (g : Q -> bool) :
  match o with Some v => g v | None => false end = true -> o <> None.
Proof. destruct o; congruence. Qed.

Lemma forall2_map_guarded n (g : Q -> bool) (rs : list row) :
  Forall2 (fun r b => b = true -> cell r n <> None) rs
    (map (fun o => match o with Some v => g v | None => false end)
         (map (fun r => cell r n) rs)).
Proof.
  induction rs as [|r rs IH]; simpl; constructor; auto. apply guarded_some.
Qed.

Lemma column_ok df c s :
  column df c = Ok s -> In c (columns df) /\ s = map (fun r => cell r c) (rows df).
Proof.
  unfold column; destruct (mem c (columns df)) eqn:Hm; intros H; inversion H.
  apply mem_In in Hm; auto.
Qed.

Lemma cmp_operand_mask f df n v m :
  cmp_operand f (map (fun r => cell r n) (rows df)) v = Ok m ->
  Forall2 (fun r b => b = true -> cell r n <> None) (rows df) m.
Proof.
  destruct v as [q|a b]; simpl; intros H.
  - inversion H; subst. apply forall2_map_guarded.
  - destruct (rows df) as [|r1 [|r2 [|r3 rs]]]; simpl in H; try discriminate.
    inversion H; subst. repeat constructor; apply guarded_some.
Qed.

(** Every recognised operator yields [df[mask]] for a mask that is [False]
    on the rows whose value is missing. *)
Lemma filter_data_mask df n operator v t :
  recognized operator -> filter_data df n operator v = Ok t ->
  exists m, t = mask_frame df m /\
            Forall2 (fun r b => b = true -> cell r n <> None) (rows df) m.
Proof.
  intros Hop. unfold filter_data.
  destruct Hop as [<-|[<-|[<-|[<-|[]]]]]; simpl;
    destruct (column df n) as [s|e] eqn:Hc; try discriminate;
    apply column_ok in Hc; destruct Hc as [_ ->].
  1-3: destruct (cmp_operand _ _ v) as [m|e] eqn:Hm; try discriminate;
       intros H; inversion H; subst; exists m; split; auto;
       eapply cmp_operand_mask; eauto.
  destruct v as [q|lo hi]; try discriminate. intros H; inversion H; subst.
  eexists; split; [reflexivity|]. apply forall2_map_guarded.
Qed.

Lemma not_recognized_cases operator :
  ~ recognized operator ->
  String.eqb operator ">" = false /\ String.eqb operator "<" = false /\
  String.eqb operator "==" = false /\ String.eqb operator "between" = false.
Proof.
  unfold recognized; simpl; intros H.
  repeat split; apply String.eqb_neq; intros ->; tauto.
Qed.

(** ** C1: an unrecognised operator *)

(** C1 (as stated, refuted): with operator [">="] the filter does not fail;
    it returns the table as it was. *)
Lemma filter_data_unrecognized_no_error :
  ~ (forall df nutrient operator value,
       ~ recognized operator ->
       exists e, filter_data df nutrient operator value = Err e).
Proof.
  intros H.
  destruct (H sample_food "Calories" ">=" (Num 300)) as [e He].
  - unfold recognized; simpl; intuition discriminate.
  - vm_compute in He; discriminate.
Qed.

(** C1 (amended): for any operator other than [">"], ["<"], ["=="] and
    ["between"], [filter_data] returns the input table itself, without
    raising and without looking at the column. *)
Theorem filter_data_unrecognized_returns_input df nutrient operator value :
  ~ recognized operator -> filter_data df nutrient operator value = Ok df.
Proof.
  intros H; destruct (not_recognized_cases operator H) as (E1 & E2 & E3 & E4).
  unfold filter_data; now rewrite E1, E2, E3, E4.
Qed.

Lemma filter_data_unrecognized_returns_input_witness :
  ~ recognized ">=" /\ filter_data sample_food "Fiber" ">=" (Num 5) = Ok sample_food.
Proof.
  assert (H : ~ recognized ">=") by (unfold recognized; simpl; intuition discriminate).
  split; [exact H | apply filter_data_unrecognized_returns_input; exact H].
Defined.

(** ** C5: a column that the table does not have *)

(** C5: with a recognised operator, filtering on a nutrient that is not a
    column of the table raises pandas' missing-column error [KeyError]
    naming the nutrient, whatever the operand. *)
Theorem filter_data_unknown_column df nutrient operator value :
  recognized operator -> ~ In nutrient (columns df) ->
  filter_data df nutrient operator value = Err (KeyError nutrient).
Proof.
  intros Hop Hn. apply mem_notIn in Hn.
  assert (Hc : column df nutrient = Err (KeyError nutrient))
    by (unfold column; now rewrite Hn).
  unfold filter_data.
  destruct Hop as [<-|[<-|[<-|[<-|[]]]]]; simpl; now rewrite Hc.
Qed.

Lemma filter_data_unknown_column_witness :
  recognized ">" /\ ~ In "Fiber" (columns sample_food) /\
  filter_data sample_food "Fiber" ">" (Num 5) = Err (KeyError "Fiber").
Proof.
  assert (H1 : recognized ">") by (unfold recognized; simpl; auto).
  assert (H2 : ~ In "Fiber" (columns sample_food))
    by (simpl; intuition discriminate).
  split; [exact H1 | split; [exact H2 |]].
  apply filter_data_unknown_column; [exact H1 | exact H2].
Defined.

(** ** C7: the between operator *)

(** C7: with ["between"] and [(lo, hi)], the result keeps, in order and with
    all columns, exactly the rows whose value [v] is present with
    [lo <= v <= hi]; when [hi < lo] no row is kept. *)
Theorem filter_data_between df nutrient lo hi :
  In nutrient (columns df) ->
  filter_data df nutrient "between" (Tup lo hi) =
    Ok (mkTable (columns df)
          (filter (fun r => match cell r nutrient with
                            | Some v => Qle_bool lo v && Qle_bool v hi
                            | None => false
                            end) (rows df))) /\
  (hi < lo -> filter_data df nutrient "between" (Tup lo hi) = Ok (mkTable (columns df) [])).
Proof.
  intros Hn. apply mem_In in Hn.
  assert (Heq : filter_data df nutrient "between" (Tup lo hi) =
    Ok (mkTable (columns df)
          (filter (fun r => match cell r nutrient with
                            | Some v => Qle_bool lo v && Qle_bool v hi
                            | None => false
                            end) (rows df)))).
  { unfold filter_data, column; simpl; rewrite Hn.
    unfold mask_frame, between. rewrite map_map, select_map. reflexivity. }
  split; [exact Heq|]. intros Hlt. rewrite Heq. do 2 f_equal.
  clear Heq Hn. induction (rows df) as [|r rs IH]; simpl; auto.
  destruct (cell r nutrient) as [v|]; auto.
  destruct (Qle_bool lo v) eqn:E1; destruct (Qle_bool v hi) eqn:E2; simpl; auto.
  apply Qle_bool_iff in E1; apply Qle_bool_iff in E2.
  exfalso; apply (Qlt_not_le hi lo Hlt); eapply Qle_trans; eauto.
Qed.

Lemma filter_data_between_witness :
  In "Calories" (columns sample_drinks) /\
  filter_data sample_drinks "Calories" "between" (Tup 200 400) =
    Ok (mkTable (columns sample_drinks)
          [mkRow "Latte" [("Calories", Some 300); ("Fat", Some 5); ("Protein", Some 9)]]).
Proof.
  assert (H : In "Calories" (columns sample_drinks)) by (simpl; auto).
  split; [exact H|].
  rewrite (proj1 (filter_data_between sample_drinks "Calories" 200 400 H)).
  reflexivity.
Defined.

(** ** C8: missing values never match *)

(** C8: under every recognised operator and operand, no row of the result
    has a missing value in the filtered column. *)
Theorem filter_data_excludes_missing df nutrient operator value t :
  recognized operator -> filter_data df nutrient operator value = Ok t ->
  forall r, In r (rows t) -> cell r nutrient <> None.
Proof.
  intros Hop Hf. destruct (filter_data_mask _ _ _ _ _ Hop Hf) as (m & -> & Hm).
  apply select_forall2; exact Hm.
Qed.

Lemma filter_data_excludes_missing_witness :
  recognized "between" /\
  filter_data sample_drinks "Calories" "between" (Tup (-1000) 1000) =
    Ok (mkTable (columns sample_drinks) (firstn 3 (rows sample_drinks))) /\
  (forall r, In r (firstn 3 (rows sample_drinks)) -> cell r "Calories" <> None).
Proof.
  assert (H1 : recognized "between") by (unfold recognized; simpl; auto).
  assert (H2 : filter_data sample_drinks "Calories" "between" (Tup (-1000) 1000) =
    Ok (mkTable (columns sample_drinks) (firstn 3 (rows sample_drinks))))
    by reflexivity.
  split; [exact H1 | split; [exact H2|]].
  exact (filter_data_excludes_missing _ _ _ _ _ H1 H2).
Defined.

(** ** C9: filtering derives a new table and changes no state *)

(** C9: with a recognised operator, a successful filter keeps all the
    columns and a sub-sequence of the rows in their original order; the
    single- and multi-category filters return the processor unchanged. *)
Theorem filter_data_derived_and_frame nutrient operator value :
  recognized operator ->
  (forall df t, filter_data df nutrient operator value = Ok t ->
     columns t = columns df /\ subseq (rows t) (rows df)) /\
  (forall st catergory,
     snd (filter_dataset st catergory nutrient operator value) = st) /\
  (forall st cats,
     snd (filter_datasets st nutrient operator value cats) = st).
Proof.
  intros Hop. split; [|split].
  - intros df t Hf. destruct (filter_data_mask _ _ _ _ _ Hop Hf) as (m & -> & _).
    split; [reflexivity | apply select_subseq].
  - intros st c. unfold filter_dataset.
    destruct (negb (mem c (categories st))); [reflexivity|].
    destruct (dict_get (datasets st) c); reflexivity.
  - reflexivity.
Qed.

Lemma filter_data_derived_and_frame_witness :
  recognized ">" /\
  filter_dataset (register_all sample_regs) "drinks" "Calories" ">" (Num 300) =
    (Ok (mkTable (columns sample_drinks) [nth 2 (rows sample_drinks) (mkRow "" [])]),
     register_all sample_regs) /\
  subseq [nth 2 (rows sample_drinks) (mkRow "" [])] (rows sample_drinks).
Proof.
  assert (H : recognized ">") by (unfold recognized; simpl; auto).
  split; [exact H | split; [reflexivity|]].
  exact (proj2 (proj1 (filter_data_derived_and_frame "Calories" ">" (Num 300) H)
    sample_drinks _ eq_refl)).
Defined.

(** ** C10: filtering an unknown category *)

(** C10: [filter_dataset] on a name absent from the category list raises
    [ValueError("'<name>' not found in datasets")] and leaves the processor
    as it was. *)
Theorem filter_dataset_unknown_category st catergory nutrient operator value :
  ~ In catergory (categories st) ->
  filter_dataset st catergory nutrient operator value =
    (Err (ValueError ("'" ++ catergory ++ "' not found in datasets")), st).
Proof.
  intros H. apply mem_notIn in H. unfold filter_dataset. now rewrite H.
Qed.

Lemma filter_dataset_unknown_category_witness :
  ~ In "snacks" (categories (register_all sample_regs)) /\
  filter_dataset (register_all sample_regs) "snacks" "Calories" ">" (Num 300) =
    (Err (ValueError "'snacks' not found in datasets"), register_all sample_regs).
Proof.
  assert (H : ~ In "snacks" (categories (register_all sample_regs)))
    by (simpl; intuition discriminate).
  split; [exact H|].
  exact (filter_dataset_unknown_category _ _ "Calories" ">" (Num 300) H).
Defined.

(** ** C2: fewer than two datasets *)

(** C2 (as stated, refuted): with a single registered category the
    comparison raises nothing; it returns [None]. *)
Lemma compare_datasets_one_category_no_error :
  ~ (forall sqrt_f st nutrients,
       (List.length (datasets st) < 2)%nat ->
       exists e, compare_datasets sqrt_f st nutrients = Err e).
Proof.
  intros H.
  destruct (H sqrt_floor (register_all [("food", sample_food)]) None) as [e He].
  - simpl; lia.
  - vm_compute in He; discriminate.
Qed.

(** C2 (amended): with fewer than two datasets registered,
    [compare_datasets] prints a message and returns [None], whatever the
    nutrient argument; it raises no error. *)
Theorem compare_datasets_too_few sqrt_f st nutrients :
  (List.length (datasets st) < 2)%nat ->
  compare_datasets sqrt_f st nutrients = Ok None.
Proof.
  intros H. unfold compare_datasets.
  replace (Nat.ltb (List.length (datasets st)) 2) with true
    by (symmetry; apply Nat.ltb_lt; exact H).
  reflexivity.
Qed.

Lemma compare_datasets_too_few_witness :
  (List.length (datasets (register_all [("food", sample_food); ("food", sample_food)])) < 2)%nat /\
  compare_datasets sqrt_floor
    (register_all [("food", sample_food); ("food", sample_food)]) None = Ok None.
Proof.
  assert (H : (List.length (datasets (register_all [("food", sample_food); ("food", sample_food)])) < 2)%nat)
    by (simpl; lia).
  split; [exact H | exact (compare_datasets_too_few _ _ None H)].
Defined.

(** ** C6: registering a category twice *)

(** C6 (as stated, refuted): registering ["food"] twice leaves it twice in
    the category list. *)
Lemma add_datasets_duplicates_category :
  categories (register_all [("food", sample_food); ("food", sample_drinks)])
    = ["food"; "food"] /\
  ~ (forall regs, NoDup (categories (register_all regs))).
Proof.
  split; [reflexivity|]. intros H.
  specialize (H [("food", sample_food); ("food", sample_drinks)]).
  simpl in H. inversion H as [|? ? Hn _]. apply Hn; left; reflexivity.
Qed.

(** C6 (amended): registering overwrites the table under the name (the
    dictionary keeps one entry per name, at its first position) and always
    appends the name to the category list, new or not; so the list is the
    sequence of all registration calls, duplicates included. *)
Theorem add_datasets_overwrites_and_appends regs catergory df :
  let st := register_all regs in
  categories (add_datasets st catergory df) = (categories st ++ [catergory])%list /\
  categories st = map fst regs /\
  dict_get (datasets (add_datasets st catergory df)) catergory = Some df /\
  NoDup (map fst (datasets (add_datasets st catergory df))) /\
  (forall c, In c (map fst (datasets (add_datasets st catergory df))) <->
             c = catergory \/ In c (map fst (datasets st))).
Proof.
  intros st. destruct (register_all_inv regs) as (H1 & _ & H3).
  split; [reflexivity | split; [exact H3 | split; [|split]]]; simpl.
  - apply dict_get_set_same.
  - now apply dict_set_nodup.
  - intros c; apply dict_set_keys.
Qed.

(** ** C3: completeness of the comparison *)

Lemma map_fst_pairs {B : Type} (f : table -> B) (d : list (string * table)) :
  map fst (map (fun '(c, df) => (c, f df)) d) = map fst d.
Proof. induction d as [|[c df] d IH]; simpl; congruence. Qed.

Lemma in_pairs {B : Type} (f : table -> B) (d : list (string * table)) c b :
  In (c, b) (map (fun '(c, df) => (c, f df)) d) ->
  exists df, In (c, df) d /\ b = f df.
Proof.
  rewrite in_map_iff. intros ([c' df] & E & Hin). inversion E; subst.
  exists df; auto.
Qed.

(** C3: once at least two categories are registered, [compare_datasets]
    returns a dictionary whose keys are exactly the registered categories;
    under each category there is one entry per nutrient of the working set
    (the caller's list, or else the columns common to all the tables), and
    each entry has exactly the nine fields: all [NaN] when the category's
    table lacks the column, otherwise an integer count and the eight other
    fields rounded to two decimals. *)
Theorem compare_datasets_complete (sqrt_f : Q -> Q) regs nutrients :
  (2 <= List.length (datasets (register_all regs)))%nat ->
  exists comp,
    compare_datasets sqrt_f (register_all regs) nutrients = Ok (Some comp) /\
    NoDup (map fst comp) /\
    (forall c, In c (map fst comp) <-> In c (categories (register_all regs))) /\
    (nutrients = None ->
       forall n, In n (resolve_nutrients (datasets (register_all regs)) nutrients) <->
                 forall c df, In (c, df) (datasets (register_all regs)) ->
                              In n (columns df)) /\
    (forall c entry, In (c, entry) comp ->
       exists df, dict_get (datasets (register_all regs)) c = Some df /\
         NoDup (map fst entry) /\
         (forall n, In n (map fst entry) <->
                    In n (resolve_nutrients (datasets (register_all regs)) nutrients)) /\
         (forall n r, In (n, r) entry -> field_ok df n r)).
Proof.
  intros Hlen. destruct (register_all_inv regs) as (Hnd & Hcat & _).
  rewrite compare_datasets_eq by assumption.
  eexists; split; [reflexivity|].
  rewrite map_fst_pairs. split; [exact Hnd | split; [|split]].
  - intros c; rewrite Hcat; tauto.
  - intros -> n. apply common_columns_spec.
    intros E; rewrite E in Hlen; simpl in Hlen; lia.
  - intros c entry Hin. apply in_pairs in Hin. destruct Hin as (df & Hin & ->).
    exists df. split; [apply dict_get_in; auto|].
    destruct (fold_set_fn (nine_fields sqrt_f df)
                (resolve_nutrients (datasets (register_all regs)) nutrients) [])
      as (H1 & H2 & H3).
    + constructor.
    + intros k v [].
    + split; [exact H1 | split].
      * intros n; rewrite H3; simpl; tauto.
      * intros n r Hr. rewrite (H2 _ _ Hr). apply nine_fields_ok.
Qed.

Lemma compare_datasets_complete_witness :
  (2 <= List.length (datasets (register_all sample_regs)))%nat /\
  exists comp,
    compare_datasets sqrt_floor (register_all sample_regs) (Some ["Carb"]) =
      Ok (Some comp) /\ NoDup (map fst comp).
Proof.
  assert (H : (2 <= List.length (datasets (register_all sample_regs)))%nat)
    by (simpl; lia).
  split; [exact H|].
  destruct (compare_datasets_complete sqrt_floor sample_regs (Some ["Carb"]) H)
    as (comp & Hc & Hnd & _).
  exists comp; split; [exact Hc | exact Hnd].
Defined.

(** ** C4: nutrient ratios *)

Lemma dict_get_pairs {B : Type} (f : table -> B) (d : list (string * table)) k :
  dict_get (map (fun '(c, df) => (c, f df)) d) k = option_map f (dict_get d k).
Proof.
  induction d as [|[c df] d IH]; simpl; auto.
  destruct (String.eqb k c); auto.
Qed.

Lemma dict_get_key {V : Type} (d : list (string * V)) k :
  In k (map fst d) -> exists v, dict_get d k = Some v.
Proof.
  induction d as [|[k' v'] d IH]; simpl; [tauto|]. intros H.
  destruct (String.eqb k k') eqn:E; [eauto|].
  apply String.eqb_neq in E. destruct H as [H|H]; [congruence | auto].
Qed.

Lemma calculate_descriptive_stats_eq sqrt_f st :
  NoDup (map fst (datasets st)) ->
  calculate_descriptive_stats sqrt_f st =
  if forallb (fun '(_, df) => has_columns df) (datasets st)
  then Ok (map (fun '(c, df) => (c, mkCatStats (describe_frame sqrt_f df) (ratios df)))
               (datasets st))
  else Err (ValueError "Cannot describe a DataFrame without columns").
Proof.
  intros Hnd. unfold calculate_descriptive_stats.
  change (Ok []) with (Ok (@nil (string * cat_stats))).
  match goal with |- fold_left ?f _ _ = _ => set (step := f) end.
  assert (Herr : forall d e, fold_left step d (Err e) = Err e).
  { induction d as [|[c df] d IH]; intros e; simpl; [reflexivity | apply IH]. }
  assert (H : forall d acc, NoDup (map fst d) ->
            (forall k, In k (map fst d) -> ~ In k (map fst acc)) ->
            fold_left step d (Ok acc) =
            if forallb (fun '(_, df) => has_columns df) d
            then Ok (acc ++ map (fun '(c, df) => (c, mkCatStats (describe_frame sqrt_f df) (ratios df))) d)%list
            else Err (ValueError "Cannot describe a DataFrame without columns")).
  { induction d as [|[c df] d IH]; intros acc Hd Hfr; simpl.
    - now rewrite app_nil_r.
    - inversion Hd as [|? ? Hnin Hd']; subst.
      subst step; cbv beta iota; unfold describe, has_columns at 1.
      destruct (columns df) as [|col cols] eqn:Ec; simpl.
      + apply Herr.
      + rewrite dict_set_fresh by (apply Hfr; left; reflexivity).
        rewrite IH; auto.
        * destruct (forallb _ d); [now rewrite <- app_assoc | reflexivity].
        * intros k Hk. rewrite map_app, in_app_iff; simpl. intros [Hk'|[Hk'|Hk']].
          -- apply (Hfr k); auto. right; exact Hk.
          -- subst; auto.
          -- exact Hk'. }
  rewrite H; auto.
Qed.

Lemma has_columns_true df : columns df <> [] -> has_columns df = true.
Proof. unfold has_columns. destruct (columns df); [congruence | reflexivity]. Qed.

Lemma forallb_has_columns (d : list (string * table)) :
  forallb (fun '(_, df) => has_columns df) d = true <->
  forall c df, In (c, df) d -> columns df <> [].
Proof.
  rewrite forallb_forall. split.
  - intros H c df Hin. apply (H (c, df)) in Hin. unfold has_columns in Hin.
    destruct (columns df); [discriminate | congruence].
  - intros H [c df] Hin. apply has_columns_true. exact (H c df Hin).
Qed.

Lemma classic_cols (d : list (string * table)) :
  (exists c df, In (c, df) d /\ columns df = []) \/
  (forall c df, In (c, df) d -> columns df <> []).
Proof.
  induction d as [|[c df] d [IH|IH]].
  - right; intros c df [].
  - left. destruct IH as (c' & df' & Hin & Hc). exists c', df'; split; [right|]; assumption.
  - destruct (columns df) eqn:E.
    + left. exists c, df; split; [left; reflexivity | exact E].
    + right. intros c' df' [Eq|Hin].
      * inversion Eq; subst. rewrite E; discriminate.
      * exact (IH c' df' Hin).
Qed.

(** C4: in the statistics [calculate_descriptive_stats] returns, every
    registered category has an entry whose ratio dictionary is
    [fat_to_protein], [protein_to_carb], [carb_to_fat], each the quotient of
    the two column sums over all rows (missing values skipped, numpy
    division), when the table has the columns Fat, Protein and Carb, and is
    empty otherwise.  The statistics are returned whenever every registered
    table has a column (a table without columns makes [describe()] raise). *)
Theorem descriptive_stats_ratios (sqrt_f : Q -> Q) regs :
  (forall stats,
     calculate_descriptive_stats sqrt_f (register_all regs) = Ok stats ->
     forall c, In c (categories (register_all regs)) ->
     exists df s,
       dict_get (datasets (register_all regs)) c = Some df /\
       dict_get stats c = Some s /\
       ((In "Fat" (columns df) /\ In "Protein" (columns df) /\ In "Carb" (columns df)) ->
          ratio s =
            [("fat_to_protein", py_div (col_sum df "Fat") (col_sum df "Protein"));
             ("protein_to_carb", py_div (col_sum df "Protein") (col_sum df "Carb"));
             ("carb_to_fat", py_div (col_sum df "Carb") (col_sum df "Fat"))]) /\
       (~ (In "Fat" (columns df) /\ In "Protein" (columns df) /\ In "Carb" (columns df)) ->
          ratio s = [])) /\
  ((forall c df, In (c, df) (datasets (register_all regs)) -> columns df <> []) ->
   exists stats, calculate_descriptive_stats sqrt_f (register_all regs) = Ok stats).
Proof.
  destruct (register_all_inv regs) as (Hnd & Hcat & _).
  rewrite (calculate_descriptive_stats_eq sqrt_f _ Hnd). split.
  - intros stats Hs c Hc.
    destruct (forallb _ _); [|discriminate]. injection Hs as <-.
    apply Hcat, dict_get_key in Hc. destruct Hc as [df Hdf].
    exists df, (mkCatStats (describe_frame sqrt_f df) (ratios df)).
    rewrite dict_get_pairs, Hdf.
    split; [reflexivity | split; [reflexivity|]]. simpl. unfold ratios.
    split.
    + intros (HF & HP & HC). apply mem_In in HF, HP, HC. now rewrite HF, HP, HC.
    + intros Hn. destruct (mem "Fat" (columns df)) eqn:HF;
        destruct (mem "Protein" (columns df)) eqn:HP;
        destruct (mem "Carb" (columns df)) eqn:HC; simpl; auto.
      apply mem_In in HF, HP, HC. tauto.
  - intros H. rewrite (proj2 (forallb_has_columns _) H). eexists; reflexivity.
Qed.

Lemma descriptive_stats_ratios_witness :
  exists stats s,
    calculate_descriptive_stats sqrt_floor (register_all sample_regs) = Ok stats /\
    dict_get stats "food" = Some s /\
    ratio s = [("fat_to_protein", VFloat (6 # 2));
               ("protein_to_carb", VFloat (2 # 4));
               ("carb_to_fat", VFloat (4 # 6))].
Proof.
  destruct (descriptive_stats_ratios sqrt_floor sample_regs) as [H1 H2].
  destruct H2 as [stats Hs].
  { intros c df Hin. vm_compute in Hin.
    destruct Hin as [E|[E|[]]]; inversion E; subst; discriminate. }
  destruct (H1 stats Hs "food") as (df & s & Hdf & Hss & Hall & _).
  { simpl; auto. }
  exists stats, s. split; [exact Hs | split; [exact Hss|]].
  vm_compute in Hdf. injection Hdf as <-.
  rewrite Hall; [vm_compute; reflexivity | simpl; auto 10].
Defined.

(** * Further properties of the processor and its callers *)

Lemma dict_get_set_other {V : Type} (d : list (string * V)) k k' v :
  k' <> k -> dict_get (dict_set d k v) k' = dict_get d k'.
Proof.
  intros Hne. induction d as [|[k0 v0] d IH]; simpl.
  - destruct (String.eqb k' k) eqn:E; auto. apply String.eqb_eq in E; congruence.
  - destruct (String.eqb k k0) eqn:E; simpl.
    + apply String.eqb_eq in E; subst.
      destruct (String.eqb k' k0) eqn:E'; auto.
      apply String.eqb_eq in E'; congruence.
    + destruct (String.eqb k' k0); auto.
Qed.

Lemma dict_get_some_in {V : Type} (d : list (string * V)) k v :
  dict_get d k = Some v -> In (k, v) d.
Proof.
  induction d as [|[k' v'] d IH]; simpl; [discriminate|].
  destruct (String.eqb k k') eqn:E; auto.
  intros H; inversion H; subst. apply String.eqb_eq in E; subst; auto.
Qed.

Lemma filter_datasets_go st nutrient operator value cats :
  filter_datasets st nutrient operator value cats =
  (filter_go st nutrient operator value
     (match cats with Some l => l | None => categories st end) [], st).
Proof.
  unfold filter_datasets; cbv zeta. f_equal.
  generalize (@nil (string * table)) as acc.
  generalize (match cats with Some l => l | None => categories st end) as cs.
  induction cs as [|c cs IH]; intros acc; simpl; auto.
  destruct (dict_get (datasets st) c); auto.
  destruct (filter_data t nutrient operator value); auto.
Qed.

Lemma filter_go_ok st nutrient operator value cs acc r :
  filter_go st nutrient operator value cs acc = Ok r ->
  (forall c, In c cs -> exists df t,
     dict_get (datasets st) c = Some df /\
     filter_data df nutrient operator value = Ok t /\ dict_get r c = Some t) /\
  (forall k, ~ In k cs -> dict_get r k = dict_get acc k) /\
  (forall k, In k (map fst r) <-> In k (map fst acc) \/ In k cs) /\
  (NoDup (map fst acc) -> NoDup (map fst r)).
Proof.
  revert acc; induction cs as [|c cs IH]; simpl; intros acc H.
  - inversion H; subst. split; [tauto | split; [auto | split; [tauto | auto]]].
  - destruct (dict_get (datasets st) c) as [df|] eqn:Hdf; [|discriminate].
    destruct (filter_data df nutrient operator value) as [t|e] eqn:Hf; [|discriminate].
    destruct (IH _ H) as (H1 & H2 & H3 & H4). split; [|split; [|split]].
    + intros c' [<-|Hin]; auto.
      destruct (in_dec String.string_dec c cs) as [Hc|Hc]; auto.
      exists df, t; repeat split; auto. rewrite H2 by auto. apply dict_get_set_same.
    + intros k Hk. rewrite H2 by tauto. apply dict_get_set_other. intuition.
    + intros k. rewrite H3, dict_set_keys. intuition.
    + intros Hnd. apply H4, dict_set_nodup, Hnd.
Qed.

Lemma filter_go_all st nutrient operator value cs acc :
  (forall c, In c cs -> exists df t,
     dict_get (datasets st) c = Some df /\ filter_data df nutrient operator value = Ok t) ->
  exists r, filter_go st nutrient operator value cs acc = Ok r.
Proof.
  revert acc; induction cs as [|c cs IH]; simpl; intros acc H; eauto.
  destruct (H c (or_introl eq_refl)) as (df & t & Hdf & Hf). rewrite Hdf, Hf.
  apply IH; auto.
Qed.

Lemma filter_go_first_missing st nutrient operator value pre c post acc :
  (forall c', In c' pre -> exists df t,
     dict_get (datasets st) c' = Some df /\ filter_data df nutrient operator value = Ok t) ->
  dict_get (datasets st) c = None ->
  filter_go st nutrient operator value (pre ++ c :: post) acc = Err (KeyError c).
Proof.
  revert acc; induction pre as [|c0 pre IH]; simpl; intros acc H Hc.
  - now rewrite Hc.
  - destruct (H c0 (or_introl eq_refl)) as (df & t & Hdf & Hf). rewrite Hdf, Hf.
    apply IH; auto.
Qed.

(** [filter_datasets] succeeds exactly when every requested category (the
    given list, or else the registered list) is registered and its filter
    succeeds; the result has one entry per requested name, no duplicate
    key, and under each name the filter of that category's table. *)
Theorem filter_datasets_per_category st nutrient operator value cats :
  let cs := match cats with Some l => l | None => categories st end in
  (forall r, fst (filter_datasets st nutrient operator value cats) = Ok r ->
     NoDup (map fst r) /\
     (forall c, In c (map fst r) <-> In c cs) /\
     (forall c, In c cs -> exists df t,
        dict_get (datasets st) c = Some df /\
        filter_data df nutrient operator value = Ok t /\ dict_get r c = Some t)) /\
  ((forall c, In c cs -> exists df t,
      dict_get (datasets st) c = Some df /\ filter_data df nutrient operator value = Ok t) ->
   exists r, fst (filter_datasets st nutrient operator value cats) = Ok r).
Proof.
  intros cs. rewrite filter_datasets_go. simpl. split.
  - intros r Hr. destruct (filter_go_ok _ _ _ _ _ _ _ Hr) as (H1 & _ & H3 & H4).
    split; [apply H4; constructor | split; auto].
    intros c; rewrite H3; simpl; tauto.
  - apply filter_go_all.
Qed.

Lemma filter_datasets_per_category_witness :
  exists r, fst (filter_datasets (register_all sample_regs) "Calories" ">" (Num 200) None)
            = Ok r /\ map fst r = ["food"; "drinks"].
Proof.
  destruct (proj2 (filter_datasets_per_category (register_all sample_regs)
                     "Calories" ">" (Num 200) None)) as [r Hr].
  - intros c Hc. simpl in Hc.
    destruct Hc as [<-|[<-|[]]]; do 2 eexists; split; reflexivity.
  - exists r; split; [exact Hr|]. vm_compute in Hr. injection Hr as <-. reflexivity.
Defined.

(** [filter_datasets] raises [KeyError] for the first requested name that is
    not a registered dataset, once the names before it have been filtered. *)
Theorem filter_datasets_unknown_category st nutrient operator value pre c post :
  (forall c', In c' pre -> exists df t,
     dict_get (datasets st) c' = Some df /\ filter_data df nutrient operator value = Ok t) ->
  dict_get (datasets st) c = None ->
  filter_datasets st nutrient operator value (Some (pre ++ c :: post)%list) =
    (Err (KeyError c), st).
Proof.
  intros Hpre Hc. rewrite filter_datasets_go. f_equal.
  apply filter_go_first_missing; auto.
Qed.

Lemma filter_datasets_unknown_category_witness :
  filter_datasets (register_all sample_regs) "Calories" ">" (Num 200)
    (Some ["food"; "snacks"; "drinks"]) = (Err (KeyError "snacks"), register_all sample_regs).
Proof.
  apply (filter_datasets_unknown_category _ _ _ _ ["food"] "snacks" ["drinks"]).
  - intros c' [<-|[]]; do 2 eexists; split; reflexivity.
  - reflexivity.
Defined.

(** After any sequence of registrations, [filter_dataset] on a registered
    category filters that category's table: the dictionary lookup behind
    the guard never fails. *)
Theorem filter_dataset_registered regs catergory nutrient operator value :
  In catergory (categories (register_all regs)) ->
  exists df,
    dict_get (datasets (register_all regs)) catergory = Some df /\
    filter_dataset (register_all regs) catergory nutrient operator value =
      (filter_data df nutrient operator value, register_all regs).
Proof.
  intros Hin. destruct (register_all_inv regs) as (_ & Hcat & _).
  destruct (dict_get_key _ _ (proj1 (Hcat _) Hin)) as [df Hdf].
  exists df; split; auto. unfold filter_dataset.
  apply mem_In in Hin. rewrite Hin, Hdf. reflexivity.
Qed.

Lemma filter_dataset_registered_witness :
  In "food" (categories (register_all sample_regs)) /\
  exists df, dict_get (datasets (register_all sample_regs)) "food" = Some df.
Proof.
  assert (H : In "food" (categories (register_all sample_regs))) by (simpl; auto).
  split; [exact H|].
  destruct (filter_dataset_registered sample_regs "food" "Fat" "<" (Num 3) H)
    as (df & Hdf & _).
  exists df; exact Hdf.
Defined.

(** ** Filters on a present column, and how they compose *)

Ltac qle_bool_props :=
  repeat match goal with
  | H : Qle_bool _ _ = true |- _ => apply Qle_bool_iff in H
  | H : Qle_bool _ _ = false |- _ =>
      apply Bool.not_true_iff_false in H; rewrite Qle_bool_iff in H
  end.

Lemma filter_data_scalar df nutrient operator f q :
  In (operator, f) [(">", py_gt); ("<", py_lt); ("==", py_eq)] ->
  filter_data df nutrient operator (Num q) =
  match column df nutrient with
  | Err e => Err e
  | Ok _ => Ok (mkTable (columns df)
                 (filter (fun r => match cell r nutrient with
                                   | Some v => f v q | None => false end) (rows df)))
  end.
Proof.
  intros Hop. unfold filter_data, column.
  destruct (mem nutrient (columns df)) eqn:Hm;
    destruct Hop as [E|[E|[E|[]]]]; inversion E; subst; simpl; auto;
    unfold mask_frame, cmp_scalar; rewrite map_map, select_map; reflexivity.
Qed.

Lemma filter_data_between_col df nutrient lo hi :
  filter_data df nutrient "between" (Tup lo hi) =
  match column df nutrient with
  | Err e => Err e
  | Ok _ => Ok (mkTable (columns df)
                 (filter (fun r => match cell r nutrient with
                                   | Some v => Qle_bool lo v && Qle_bool v hi
                                   | None => false end) (rows df)))
  end.
Proof.
  unfold filter_data, column; simpl.
  destruct (mem nutrient (columns df)); auto.
  unfold mask_frame, between; rewrite map_map, select_map; reflexivity.
Qed.

Lemma column_same_columns df t nutrient :
  columns t = columns df ->
  (exists s, column df nutrient = Ok s) -> exists s, column t nutrient = Ok s.
Proof.
  unfold column; intros E [s Hs]; rewrite E.
  destruct (mem nutrient (columns df)); [eauto | discriminate].
Qed.

Lemma filter_filter_and {A : Type} (p q : A -> bool) l :
  filter q (filter p l) = filter (fun x => p x && q x) l.
Proof.
  induction l as [|x l IH]; simpl; auto.
  destruct (p x); simpl; auto. destruct (q x); simpl; congruence.
Qed.

Lemma compose_filters df nutrient (g1 g2 g : Q -> bool) :
  (forall v, g1 v && g2 v = g v) ->
  (match column df nutrient with
   | Err e => Err e
   | Ok _ =>
       let t := mkTable (columns df)
                  (filter (fun r => match cell r nutrient with
                                    | Some v => g1 v | None => false end) (rows df)) in
       match column t nutrient with
       | Err e => Err e
       | Ok _ => Ok (mkTable (columns t)
                       (filter (fun r => match cell r nutrient with
                                         | Some v => g2 v | None => false end) (rows t)))
       end
   end) =
  match column df nutrient with
  | Err e => Err e
  | Ok _ => Ok (mkTable (columns df)
                 (filter (fun r => match cell r nutrient with
                                   | Some v => g v | None => false end) (rows df)))
  end.
Proof.
  intros Hg. destruct (column df nutrient) as [s|e] eqn:Hc; auto.
  destruct (column_same_columns df
              (mkTable (columns df)
                 (filter (fun r => match cell r nutrient with
                                   | Some v => g1 v | None => false end) (rows df)))
              nutrient eq_refl (ex_intro _ s Hc)) as [s' Hs'].
  cbv zeta; rewrite Hs'; simpl. rewrite filter_filter_and.
  do 2 f_equal. apply filter_ext; intros r. destruct (cell r nutrient); auto.
Qed.

Lemma gt_and_max v a b : py_gt v a && py_gt v b = py_gt v (Qmax a b).
Proof.
  unfold py_gt.
  destruct (Qle_bool v (Qmax a b)) eqn:E; destruct (Qle_bool v a) eqn:Ea;
    destruct (Qle_bool v b) eqn:Eb; simpl; auto; qle_bool_props;
    rewrite Q.max_le_iff in E; tauto.
Qed.

Lemma lt_and_min v a b : py_lt v a && py_lt v b = py_lt v (Qmin a b).
Proof.
  unfold py_lt.
  destruct (Qle_bool (Qmin a b) v) eqn:E; destruct (Qle_bool a v) eqn:Ea;
    destruct (Qle_bool b v) eqn:Eb; simpl; auto; qle_bool_props;
    rewrite Q.min_le_iff in E; tauto.
Qed.

Lemma between_and v lo1 hi1 lo2 hi2 :
  (Qle_bool lo1 v && Qle_bool v hi1) && (Qle_bool lo2 v && Qle_bool v hi2) =
  Qle_bool (Qmax lo1 lo2) v && Qle_bool v (Qmin hi1 hi2).
Proof.
  destruct (Qle_bool (Qmax lo1 lo2) v) eqn:E1; destruct (Qle_bool v (Qmin hi1 hi2)) eqn:E2;
  destruct (Qle_bool lo1 v) eqn:Ea; destruct (Qle_bool v hi1) eqn:Eb;
  destruct (Qle_bool lo2 v) eqn:Ec; destruct (Qle_bool v hi2) eqn:Ed;
  simpl; auto; qle_bool_props;
  rewrite ?Q.max_lub_iff, ?Q.min_glb_iff in *; tauto.
Qed.

(** Two successive [">"] filters on one column are one [">"] filter at the
    larger threshold (two ["<"] filters: the smaller); a missing column
    fails both ways with the same error. *)
Theorem filter_gt_gt df nutrient a b :
  then_filter (filter_data df nutrient ">" (Num a)) nutrient ">" (Num b) =
  filter_data df nutrient ">" (Num (Qmax a b)) /\
  then_filter (filter_data df nutrient "<" (Num a)) nutrient "<" (Num b) =
  filter_data df nutrient "<" (Num (Qmin a b)).
Proof.
  unfold then_filter. split.
  - rewrite !(filter_data_scalar _ _ ">" py_gt _ ltac:(simpl; auto)).
    destruct (column df nutrient) as [s|e] eqn:Hc; auto.
    rewrite (filter_data_scalar _ _ ">" py_gt _ ltac:(simpl; auto)).
    pose proof (compose_filters df nutrient (fun v => py_gt v a) (fun v => py_gt v b)
      (fun v => py_gt v (Qmax a b)) (fun v => gt_and_max v a b)) as H.
    rewrite Hc in H; exact H.
  - rewrite !(filter_data_scalar _ _ "<" py_lt _ ltac:(simpl; auto)).
    destruct (column df nutrient) as [s|e] eqn:Hc; auto.
    rewrite (filter_data_scalar _ _ "<" py_lt _ ltac:(simpl; auto)).
    pose proof (compose_filters df nutrient (fun v => py_lt v a) (fun v => py_lt v b)
      (fun v => py_lt v (Qmin a b)) (fun v => lt_and_min v a b)) as H.
    rewrite Hc in H; exact H.
Qed.

(** Two successive ["between"] filters on one column are one ["between"]
    filter on the intersection of the two ranges. *)
Theorem filter_between_between df nutrient lo1 hi1 lo2 hi2 :
  then_filter (filter_data df nutrient "between" (Tup lo1 hi1)) nutrient "between" (Tup lo2 hi2) =
  filter_data df nutrient "between" (Tup (Qmax lo1 lo2) (Qmin hi1 hi2)).
Proof.
  unfold then_filter. rewrite !filter_data_between_col.
  destruct (column df nutrient) as [s|e] eqn:Hc; auto.
  rewrite filter_data_between_col.
  pose proof (compose_filters df nutrient
    (fun v => Qle_bool lo1 v && Qle_bool v hi1) (fun v => Qle_bool lo2 v && Qle_bool v hi2)
    (fun v => Qle_bool (Qmax lo1 lo2) v && Qle_bool v (Qmin hi1 hi2))
    (fun v => between_and v lo1 hi1 lo2 hi2)) as H.
  rewrite Hc in H; exact H.
Qed.

Lemma trichotomy_count v q :
  ((if py_gt v q then 1 else 0) + (if py_lt v q then 1 else 0) +
   (if py_eq v q then 1 else 0) = 1)%nat.
Proof.
  unfold py_gt, py_lt, py_eq.
  destruct (Qle_bool v q) eqn:E1; destruct (Qle_bool q v) eqn:E2;
    destruct (Qeq_bool v q) eqn:E3; simpl; auto; qle_bool_props;
    try (apply Qeq_bool_iff in E3);
    try (apply Bool.not_true_iff_false in E3; rewrite Qeq_bool_iff in E3);
    exfalso; lra.
Qed.

(** On a present column, the [">"], ["<"] and ["=="] filters at the same
    finite number [q] split the rows with a value: their row counts add up
    to the number of rows whose value is not missing.  ([Num q] is a finite
    float; at [float('nan')] all three filters keep no row, which this
    statement does not cover.) *)
Theorem filter_trichotomy df nutrient q :
  In nutrient (columns df) ->
  exists tg tl te,
    filter_data df nutrient ">" (Num q) = Ok tg /\
    filter_data df nutrient "<" (Num q) = Ok tl /\
    filter_data df nutrient "==" (Num q) = Ok te /\
    (List.length (rows tg) + List.length (rows tl) + List.length (rows te) =
     List.length (filter (fun r => match cell r nutrient with
                                   | Some _ => true | None => false end) (rows df)))%nat.
Proof.
  intros Hn. apply mem_In in Hn.
  assert (Hc : column df nutrient = Ok (map (fun r => cell r nutrient) (rows df)))
    by (unfold column; now rewrite Hn).
  rewrite (filter_data_scalar _ _ ">" py_gt _ ltac:(simpl; auto)),
          (filter_data_scalar _ _ "<" py_lt _ ltac:(simpl; auto)),
          (filter_data_scalar _ _ "==" py_eq _ ltac:(simpl; auto)), Hc.
  do 3 eexists; split; [reflexivity | split; [reflexivity | split; [reflexivity|]]].
  simpl. clear Hc Hn. induction (rows df) as [|r rs IH]; simpl; auto.
  destruct (cell r nutrient) as [v|]; auto.
  pose proof (trichotomy_count v q).
  destruct (py_gt v q); destruct (py_lt v q); destruct (py_eq v q); simpl in *; lia.
Qed.

Lemma filter_trichotomy_witness :
  In "Calories" (columns sample_drinks) /\
  exists tg tl te,
    filter_data sample_drinks "Calories" ">" (Num 300) = Ok tg /\
    filter_data sample_drinks "Calories" "<" (Num 300) = Ok tl /\
    filter_data sample_drinks "Calories" "==" (Num 300) = Ok te /\
    (List.length (rows tg) + List.length (rows tl) + List.length (rows te) = 3)%nat.
Proof.
  assert (H : In "Calories" (columns sample_drinks)) by (simpl; auto).
  split; [exact H|].
  destruct (filter_trichotomy sample_drinks "Calories" 300 H)
    as (tg & tl & te & H1 & H2 & H3 & H4).
  exists tg, tl, te. split; [exact H1 | split; [exact H2 | split; [exact H3|]]].
  rewrite H4. reflexivity.
Defined.

(** ** What the comparison records contain *)

Lemma valid_length nutrient rs :
  List.length (valid (map (fun r => cell r nutrient) rs)) =
  List.length (filter (has_value nutrient) rs).
Proof.
  induction rs as [|r rs IH]; simpl; auto.
  unfold has_value; destruct (cell r nutrient); simpl; auto.
Qed.

Lemma compare_entries sqrt_f regs nutrients :
  (2 <= List.length (datasets (register_all regs)))%nat ->
  exists comp,
    compare_datasets sqrt_f (register_all regs) nutrients = Ok (Some comp) /\
    forall c entry, In (c, entry) comp ->
      exists df, dict_get (datasets (register_all regs)) c = Some df /\
        In (c, df) (datasets (register_all regs)) /\
        (forall n, In n (map fst entry) <->
                   In n (resolve_nutrients (datasets (register_all regs)) nutrients)) /\
        forall n r, In (n, r) entry ->
          r = nine_fields sqrt_f df n /\
          In n (resolve_nutrients (datasets (register_all regs)) nutrients).
Proof.
  intros Hlen. destruct (register_all_inv regs) as (Hnd & _ & _).
  rewrite compare_datasets_eq by assumption.
  eexists; split; [reflexivity|].
  intros c entry Hin. apply in_pairs in Hin. destruct Hin as (df & Hin & ->).
  exists df. split; [apply dict_get_in; auto | split; auto].
  destruct (fold_set_fn (nine_fields sqrt_f df)
              (resolve_nutrients (datasets (register_all regs)) nutrients) [])
    as (_ & H2 & H3); [constructor | intros k v [] |].
  split; [intros n; rewrite H3; simpl; tauto|].
  intros n r Hr. split; [exact (H2 _ _ Hr)|].
  assert (Hk : In n (map fst
     (fold_left (fun m n0 => dict_set m n0 (nine_fields sqrt_f df n0))
        (resolve_nutrients (datasets (register_all regs)) nutrients) [])))
    by (apply (in_map fst) in Hr; exact Hr).
  apply H3 in Hk. simpl in Hk. tauto.
Qed.

(** In the comparison, the [count] of a column that a category's table has
    is the number of its rows whose value is not missing. *)
Theorem compare_count_non_missing sqrt_f regs nutrients :
  (2 <= List.length (datasets (register_all regs)))%nat ->
  exists comp,
    compare_datasets sqrt_f (register_all regs) nutrients = Ok (Some comp) /\
    forall c entry df n r,
      In (c, entry) comp -> dict_get (datasets (register_all regs)) c = Some df ->
      In (n, r) entry -> In n (columns df) ->
      In ("count", VInt (Z.of_nat (List.length (filter (has_value n) (rows df))))) r.
Proof.
  intros Hlen. destruct (compare_entries sqrt_f regs nutrients Hlen) as (comp & Hc & H).
  exists comp; split; auto.
  intros c entry df n r Hce Hdf Hnr Hn.
  destruct (H _ _ Hce) as (df' & Hdf' & _ & _ & Hent).
  rewrite Hdf in Hdf'; injection Hdf' as <-.
  destruct (Hent _ _ Hnr) as [-> _].
  unfold nine_fields. apply mem_In in Hn; rewrite Hn.
  rewrite <- valid_length. left; reflexivity.
Qed.

Lemma compare_count_non_missing_witness :
  (2 <= List.length (datasets (register_all sample_regs)))%nat /\
  exists comp,
    compare_datasets sqrt_floor (register_all sample_regs) None = Ok (Some comp).
Proof.
  assert (H : (2 <= List.length (datasets (register_all sample_regs)))%nat)
    by (simpl; lia).
  split; [exact H|].
  destruct (compare_count_non_missing sqrt_floor sample_regs None H) as (comp & Hc & _).
  exists comp; exact Hc.
Defined.

(** With the default nutrient set (no argument), every record of the
    comparison is for a column the category's table has: none is the
    all-[NaN] record, and every [count] is an integer. *)
Theorem compare_default_all_present sqrt_f regs :
  (2 <= List.length (datasets (register_all regs)))%nat ->
  exists comp,
    compare_datasets sqrt_f (register_all regs) None = Ok (Some comp) /\
    forall c entry n r, In (c, entry) comp -> In (n, r) entry ->
      exists df, dict_get (datasets (register_all regs)) c = Some df /\
        In n (columns df) /\ exists z, In ("count", VInt z) r.
Proof.
  intros Hlen. destruct (compare_entries sqrt_f regs None Hlen) as (comp & Hc & H).
  exists comp; split; auto.
  intros c entry n r Hce Hnr.
  destruct (H _ _ Hce) as (df & Hdf & Hin & _ & Hent).
  destruct (Hent _ _ Hnr) as [-> HN].
  exists df; split; auto.
  assert (Hn : In n (columns df)).
  { simpl in HN.
    assert (Hne : datasets (register_all regs) <> [])
      by (intros E; rewrite E in Hlen; simpl in Hlen; lia).
    exact (proj1 (common_columns_spec _ _ Hne) HN _ _ Hin). }
  split; auto. unfold nine_fields. apply mem_In in Hn; rewrite Hn.
  eexists; left; reflexivity.
Qed.

Lemma compare_default_all_present_witness :
  (2 <= List.length (datasets (register_all sample_regs)))%nat /\
  exists comp,
    compare_datasets sqrt_floor (register_all sample_regs) None = Ok (Some comp).
Proof.
  assert (H : (2 <= List.length (datasets (register_all sample_regs)))%nat)
    by (simpl; lia).
  split; [exact H|].
  destruct (compare_default_all_present sqrt_floor sample_regs H) as (comp & Hc & _).
  exists comp; exact Hc.
Defined.

(** ** [describe]: min and max *)

Lemma dict_get_keyed {V : Type} (F : string -> V) (cols : list string) c :
  In c cols -> dict_get (map (fun c => (c, F c)) cols) c = Some (F c).
Proof.
  induction cols as [|c' cols IH]; simpl; [tauto|]. intros H.
  destruct (String.eqb c c') eqn:E.
  - apply String.eqb_eq in E; subst; reflexivity.
  - apply String.eqb_neq in E. destruct H as [H|H]; [congruence | auto].
Qed.

Lemma valid_nonempty nutrient rs r :
  In r rs -> has_value nutrient r = true ->
  valid (map (fun r => cell r nutrient) rs) <> [].
Proof.
  induction rs as [|r0 rs IH]; simpl; [tauto|]. intros [<-|H] Hv.
  - unfold has_value in Hv; destruct (cell r0 nutrient); [discriminate | discriminate].
  - destruct (cell r0 nutrient); [discriminate | auto].
Qed.

Lemma valid_in nutrient rs y :
  In y (valid (map (fun r => cell r nutrient) rs)) <->
  exists r, In r rs /\ cell r nutrient = Some y.
Proof.
  induction rs as [|r0 rs IH]; simpl.
  - split; [tauto | intros (r & [] & _)].
  - destruct (cell r0 nutrient) as [v|] eqn:E; simpl; rewrite IH; split.
    + intros [<-|(r & Hr & Hc)]; [exists r0; auto | exists r; auto].
    + intros (r & [<-|Hr] & Hc); [left; congruence | right; exists r; auto].
    + intros (r & Hr & Hc); exists r; auto.
    + intros (r & [<-|Hr] & Hc); [congruence | exists r; auto].
Qed.

Lemma fold_min_le l x y : In y (x :: l) -> fold_left Qmin l x <= y.
Proof.
  revert x y; induction l as [|a l IH]; simpl; intros x y Hy.
  - destruct Hy as [<-|[]]; apply Qle_refl.
  - destruct Hy as [<-|[<-|Hy]].
    + eapply Qle_trans; [apply IH; left; reflexivity | apply Q.le_min_l].
    + eapply Qle_trans; [apply IH; left; reflexivity | apply Q.le_min_r].
    + apply IH; right; exact Hy.
Qed.

Lemma fold_max_ge l x y : In y (x :: l) -> y <= fold_left Qmax l x.
Proof.
  revert x y; induction l as [|a l IH]; simpl; intros x y Hy.
  - destruct Hy as [<-|[]]; apply Qle_refl.
  - destruct Hy as [<-|[<-|Hy]].
    + eapply Qle_trans; [apply Q.le_max_l | apply IH; left; reflexivity].
    + eapply Qle_trans; [apply Q.le_max_r | apply IH; left; reflexivity].
    + apply IH; right; exact Hy.
Qed.

(** [Qmin] and [Qmax] return one of their arguments, so the folds return an
    item of the list itself. *)
Lemma fold_min_in l x : In (fold_left Qmin l x) (x :: l).
Proof.
  revert x; induction l as [|a l IH]; simpl; intros x; [left; reflexivity|].
  destruct (IH (Qmin x a)) as [E|E]; [rewrite <- E | right; right; exact E].
  unfold Qmin, GenericMinMax.gmin. destruct (Qcompare x a); simpl; auto.
Qed.

Lemma fold_max_in l x : In (fold_left Qmax l x) (x :: l).
Proof.
  revert x; induction l as [|a l IH]; simpl; intros x; [left; reflexivity|].
  destruct (IH (Qmax x a)) as [E|E]; [rewrite <- E | right; right; exact E].
  unfold Qmax, GenericMinMax.gmax. destruct (Qcompare x a); simpl; auto.
Qed.

Lemma fold_plus_right l acc :
  fold_left Qplus l acc == acc + fold_right Qplus 0 l.
Proof.
  revert acc; induction l as [|a l IH]; simpl; intros acc; [ring|].
  rewrite IH. ring.
Qed.

(** For every column of a table with at least one value, [describe()]
    succeeds and its [min] and [max] for that column are values the column
    holds, every value of the column lying between them. *)
Theorem describe_min_max sqrt_f df nutrient :
  In nutrient (columns df) ->
  (exists r, In r (rows df) /\ has_value nutrient r = true) ->
  exists d mins maxs lo hi,
    describe sqrt_f df = Ok d /\
    dict_get d "min" = Some mins /\
    dict_get d "max" = Some maxs /\
    dict_get mins nutrient = Some (VFloat lo) /\
    dict_get maxs nutrient = Some (VFloat hi) /\
    (exists r, In r (rows df) /\ cell r nutrient = Some lo) /\
    (exists r, In r (rows df) /\ cell r nutrient = Some hi) /\
    (forall r v, In r (rows df) -> cell r nutrient = Some v -> lo <= v /\ v <= hi).
Proof.
  intros Hn (r & Hr & Hv).
  pose proof (valid_nonempty _ _ _ Hr Hv) as Hne.
  pose proof (valid_in nutrient (rows df)) as Hvi.
  set (xs := valid (map (fun r => cell r nutrient) (rows df))) in *.
  destruct xs as [|x l] eqn:Exs; [congruence|].
  exists (describe_frame sqrt_f df).
  exists (map (fun c => (c, qmin (valid (map (fun r => cell r c) (rows df))))) (columns df)),
         (map (fun c => (c, qmax (valid (map (fun r => cell r c) (rows df))))) (columns df)).
  exists (fold_left Qmin l x), (fold_left Qmax l x).
  split.
  { unfold describe. destruct (columns df); [destruct Hn | reflexivity]. }
  split; [reflexivity | split; [reflexivity|]].
  rewrite !(dict_get_keyed (fun c => _ (valid (map (fun r => cell r c) (rows df))))
              _ _ Hn).
  fold xs. rewrite Exs.
  split; [reflexivity | split; [reflexivity|]].
  split; [apply Hvi, fold_min_in|].
  split; [apply Hvi, fold_max_in|].
  intros r' v Hr' Hc. assert (Hin : In v (x :: l)) by (apply Hvi; exists r'; auto).
  split; [apply fold_min_le | apply fold_max_ge]; exact Hin.
Qed.

Lemma describe_min_max_witness :
  In "Calories" (columns sample_drinks) /\
  (exists r, In r (rows sample_drinks) /\ has_value "Calories" r = true) /\
  exists d mins, describe sqrt_floor sample_drinks = Ok d /\ dict_get d "min" = Some mins.
Proof.
  assert (H1 : In "Calories" (columns sample_drinks)) by (simpl; auto).
  assert (H2 : exists r, In r (rows sample_drinks) /\ has_value "Calories" r = true)
    by (eexists; split; [left; reflexivity | reflexivity]).
  split; [exact H1 | split; [exact H2|]].
  destruct (describe_min_max sqrt_floor sample_drinks "Calories" H1 H2)
    as (d & mins & _ & _ & _ & Hd & Hm & _).
  exists d, mins; split; [exact Hd | exact Hm].
Defined.

(** ** Printing a comparison *)

Lemma fill_nutrients_ok cd c m ns acc :
  (exists entry, dict_get cd c = Some entry /\
     forall n, In n ns -> exists fields v,
       dict_get entry n = Some fields /\ dict_get fields m = Some v) ->
  exists r, fill_nutrients cd c m ns acc = Ok r.
Proof.
  intros (entry & He & H). revert acc.
  induction ns as [|n ns IH]; simpl; intros acc.
  - exists acc; reflexivity.
  - destruct (H n (or_introl eq_refl)) as (fields & v & Hf & Hv).
    unfold py_getitem. rewrite He, Hf, Hv. apply IH. intros n' Hn'. apply H; right; exact Hn'.
Qed.

Lemma fill_categories_ok cd m cs ns tp :
  (forall c, In c cs -> exists entry, dict_get cd c = Some entry /\
     forall n, In n ns -> exists fields v,
       dict_get entry n = Some fields /\ dict_get fields m = Some v) ->
  exists r, fill_categories cd m cs ns tp = Ok r.
Proof.
  revert tp; induction cs as [|c cs IH]; simpl; intros tp H; [exists tp; reflexivity|].
  destruct (fill_nutrients_ok cd c m ns [] (H c (or_introl eq_refl))) as [r Hr].
  rewrite Hr. apply IH; auto.
Qed.

Lemma fill_metrics_ok cd ms cs ns printed :
  (forall m c, In m ms -> In c cs -> exists entry, dict_get cd c = Some entry /\
     forall n, In n ns -> exists fields v,
       dict_get entry n = Some fields /\ dict_get fields m = Some v) ->
  exists r, fill_metrics cd ms cs ns printed = Ok r /\
            map fst r = (map fst printed ++ ms)%list.
Proof.
  revert printed; induction ms as [|m ms IH]; simpl; intros printed H.
  - exists printed; split; auto. now rewrite app_nil_r.
  - destruct (fill_categories_ok cd m cs ns [] (fun c Hc => H m c (or_introl eq_refl) Hc))
      as [tp Htp].
    rewrite Htp. destruct (IH (printed ++ [(m, tp)])%list) as (r & Hr & Hk).
    + intros m' c Hm Hc; apply H; auto.
    + exists r; split; auto. rewrite Hk, map_app, <- app_assoc; reflexivity.
Qed.

Lemma nine_fields_keys sqrt_f df n m :
  In m nine_names -> exists v, dict_get (nine_fields sqrt_f df n) m = Some v.
Proof.
  intros Hm. apply dict_get_key. rewrite (proj1 (nine_fields_ok sqrt_f df n)). exact Hm.
Qed.

(** [compare_datasets] followed by [print_comparison]: the lookups
    [comparison_dict[category][nutrient][metric]] all succeed. *)
Lemma compare_then_print sqrt_f regs nutrients metrics :
  (2 <= List.length (datasets (register_all regs)))%nat ->
  (forall m, In m (match metrics with Some l => l | None => default_metrics end) ->
             In m nine_names) ->
  exists comp tables,
    compare_datasets sqrt_f (register_all regs) nutrients = Ok (Some comp) /\
    print_comparison (Some comp) metrics = Ok tables /\
    map fst tables = match metrics with Some l => l | None => default_metrics end.
Proof.
  intros Hlen Hms.
  destruct (compare_entries sqrt_f regs nutrients Hlen) as (comp & Hc & H).
  exists comp.
  assert (Hlookup : forall m c entry, In m nine_names -> In (c, entry) comp ->
            forall n, In n (resolve_nutrients (datasets (register_all regs)) nutrients) ->
            exists fields v, dict_get entry n = Some fields /\ dict_get fields m = Some v).
  { intros m c entry Hm Hce n Hn.
    destruct (H _ _ Hce) as (df & _ & _ & Hkeys & Hent).
    destruct (dict_get_key entry n (proj2 (Hkeys n) Hn)) as [fields Hf].
    destruct (Hent _ _ (dict_get_some_in _ _ _ Hf)) as [-> _].
    destruct (nine_fields_keys sqrt_f df n m Hm) as [v Hv].
    exists (nine_fields sqrt_f df n), v; auto. }
  unfold print_comparison.
  destruct comp as [|[c0 first] rest] eqn:Ecomp.
  - exfalso. destruct (register_all_inv regs) as (Hnd & _ & _).
    rewrite compare_datasets_eq in Hc by auto. injection Hc as Hc.
    symmetry in Hc.
    apply (f_equal (@List.length _)) in Hc. rewrite length_map in Hc.
    simpl in Hc; lia.
  - rewrite <- Ecomp in Hlookup, H, Hc |- *.
    destruct (fill_metrics_ok comp
                (match metrics with Some l => l | None => default_metrics end)
                (map fst comp) (map fst first) []) as (tables & Ht & Hk).
    + intros m c Hm Hcin.
      apply in_map_iff in Hcin. destruct Hcin as ([c' entry] & <- & Hce).
      destruct (dict_get_key comp c' (in_map fst _ _ Hce)) as [entry' He'].
      exists entry'; split; auto.
      intros n Hn. apply (Hlookup m c' entry' (Hms m Hm) (dict_get_some_in _ _ _ He')).
      assert (Hfirst : In (c0, first) comp) by (rewrite Ecomp; left; reflexivity).
      destruct (H _ _ Hfirst) as (df0 & _ & _ & Hk0 & _).
      apply Hk0; exact Hn.
    + exists tables; split; [exact Hc | split; auto].
Qed.

(** Printing a comparison returned by [compare_datasets] (two or more
    categories) raises no [KeyError] for metrics among the nine fields
    (including the default metrics): one table is printed per metric. *)
Theorem print_comparison_after_compare sqrt_f regs nutrients metrics :
  (2 <= List.length (datasets (register_all regs)))%nat ->
  (forall m, In m (match metrics with Some l => l | None => default_metrics end) ->
             In m nine_names) ->
  exists comp tables,
    compare_datasets sqrt_f (register_all regs) nutrients = Ok (Some comp) /\
    print_comparison (Some comp) metrics = Ok tables /\
    map fst tables = match metrics with Some l => l | None => default_metrics end.
Proof. exact (compare_then_print sqrt_f regs nutrients metrics). Qed.

Lemma print_comparison_after_compare_witness :
  (2 <= List.length (datasets (register_all sample_regs)))%nat /\
  exists comp tables,
    compare_datasets sqrt_floor (register_all sample_regs) None = Ok (Some comp) /\
    print_comparison (Some comp) None = Ok tables.
Proof.
  assert (H : (2 <= List.length (datasets (register_all sample_regs)))%nat)
    by (simpl; lia).
  split; [exact H|].
  destruct (print_comparison_after_compare sqrt_floor sample_regs None None H)
    as (comp & tables & Hc & Hp & _).
  - intros m Hm. simpl in Hm |- *. intuition.
  - exists comp, tables; split; assumption.
Defined.

(** With fewer than two categories registered, [compare_datasets] returns
    [None] and handing that result to [print_comparison] raises a
    [TypeError] ([len(None)]); it never prints "No comparison data". *)
Theorem print_comparison_too_few sqrt_f st nutrients metrics :
  (List.length (datasets st) < 2)%nat ->
  match compare_datasets sqrt_f st nutrients with
  | Ok comp => print_comparison comp metrics
  | Err e => Err e
  end = Err (TypeError "object of type 'NoneType' has no len()").
Proof.
  intros H. unfold compare_datasets.
  replace (Nat.ltb (List.length (datasets st)) 2) with true
    by (symmetry; apply Nat.ltb_lt; exact H).
  reflexivity.
Qed.

Lemma print_comparison_too_few_witness :
  (List.length (datasets (register_all [("food", sample_food)])) < 2)%nat /\
  match compare_datasets sqrt_floor (register_all [("food", sample_food)]) None with
  | Ok comp => print_comparison comp None
  | Err e => Err e
  end = Err (TypeError "object of type 'NoneType' has no len()").
Proof.
  assert (H : (List.length (datasets (register_all [("food", sample_food)])) < 2)%nat)
    by (simpl; lia).
  split; [exact H|].
  exact (print_comparison_too_few sqrt_floor _ None None H).
Defined.

(** The comparison step of [generate_stats] never raises: for any two menus
    that each have a column (so that [calculate_descriptive_stats()] runs),
    [compare_datasets()] followed by [print_comparison(..., metrics=['mean',
    'min'])] prints exactly two tables, for [mean] and then [min]. *)
Theorem generate_stats_prints sqrt_f food drinks :
  columns food <> [] -> columns drinks <> [] ->
  exists tables,
    generate_stats sqrt_f food drinks = Ok tables /\
    map fst tables = ["mean"; "min"].
Proof.
  intros Hf Hd.
  destruct (compare_then_print sqrt_f [("food", food); ("drinks", drinks)]
              None (Some ["mean"; "min"])) as (comp & tables & Hc & Hp & Hk).
  - simpl; lia.
  - intros m Hm. simpl in Hm |- *. intuition.
  - exists tables. split; [|exact Hk].
    unfold generate_stats. cbv zeta.
    change (add_datasets (add_datasets init "food" food) "drinks" drinks)
      with (register_all [("food", food); ("drinks", drinks)]).
    destruct (register_all_inv [("food", food); ("drinks", drinks)]) as (Hnd & _ & _).
    rewrite (calculate_descriptive_stats_eq sqrt_f _ Hnd).
    rewrite (proj2 (forallb_has_columns _)).
    + cbv beta iota. rewrite Hc. exact Hp.
    + intros c df Hin. simpl in Hin.
      destruct Hin as [E|[E|[]]]; inversion E; subst; assumption.
Qed.

Lemma generate_stats_prints_witness :
  columns sample_food <> [] /\ columns sample_drinks <> [] /\
  exists tables, generate_stats sqrt_floor sample_food sample_drinks = Ok tables.
Proof.
  assert (H1 : columns sample_food <> []) by discriminate.
  assert (H2 : columns sample_drinks <> []) by discriminate.
  split; [exact H1 | split; [exact H2|]].
  destruct (generate_stats_prints sqrt_floor sample_food sample_drinks H1 H2)
    as (tables & Ht & _).
  exists tables; exact Ht.
Defined.

(** When either menu has no column, [generate_stats] stops at
    [calculate_descriptive_stats()] with the [ValueError] of [describe()]:
    no comparison is computed or printed. *)
Theorem generate_stats_no_columns sqrt_f food drinks :
  columns food = [] \/ columns drinks = [] ->
  generate_stats sqrt_f food drinks =
    Err (ValueError "Cannot describe a DataFrame without columns").
Proof.
  intros H. unfold generate_stats. cbv zeta.
  change (add_datasets (add_datasets init "food" food) "drinks" drinks)
    with (register_all [("food", food); ("drinks", drinks)]).
  destruct (register_all_inv [("food", food); ("drinks", drinks)]) as (Hnd & _ & _).
  rewrite (calculate_descriptive_stats_eq sqrt_f _ Hnd).
  simpl datasets. simpl forallb. unfold has_columns at 1 2.
  destruct H as [H|H]; rewrite H; [reflexivity|].
  destruct (columns food); reflexivity.
Qed.

Lemma generate_stats_no_columns_witness :
  (columns empty_menu = [] \/ columns sample_drinks = []) /\
  generate_stats sqrt_floor empty_menu sample_drinks =
    Err (ValueError "Cannot describe a DataFrame without columns").
Proof.
  assert (H : columns empty_menu = [] \/ columns sample_drinks = []) by (left; reflexivity).
  split; [exact H|].
  exact (generate_stats_no_columns sqrt_floor empty_menu sample_drinks H).
Defined.

(** ** Descriptive statistics: keys and zero sums *)

(** [calculate_descriptive_stats] raises [ValueError] exactly when a
    registered table has no column.  Otherwise it has one entry per distinct
    registered name, in the order [datasets] keeps them, even when
    [categories] lists a name twice; each entry holds [describe()] of the
    table stored under that name and its ratios. *)
Theorem descriptive_stats_keys sqrt_f regs :
  (calculate_descriptive_stats sqrt_f (register_all regs) =
     Err (ValueError "Cannot describe a DataFrame without columns") <->
   exists c df, In (c, df) (datasets (register_all regs)) /\ columns df = []) /\
  (forall stats, calculate_descriptive_stats sqrt_f (register_all regs) = Ok stats ->
     map fst stats = map fst (datasets (register_all regs)) /\
     NoDup (map fst stats) /\
     (forall c, In c (categories (register_all regs)) <-> In c (map fst stats)) /\
     (forall c df, dict_get (datasets (register_all regs)) c = Some df ->
        exists d, describe sqrt_f df = Ok d /\
                  dict_get stats c = Some (mkCatStats d (ratios df)))).
Proof.
  destruct (register_all_inv regs) as (Hnd & Hcat & _).
  rewrite (calculate_descriptive_stats_eq sqrt_f _ Hnd).
  split.
  - split.
    + intros He. destruct (forallb _ _) eqn:Eb; [discriminate|].
      destruct (classic_cols (datasets (register_all regs))) as [Hex|Hall];
        [exact Hex|].
      rewrite (proj2 (forallb_has_columns _) Hall) in Eb. discriminate.
    + intros (c & df & Hin & Hc).
      destruct (forallb _ _) eqn:Eb; [|reflexivity].
      exfalso. exact (proj1 (forallb_has_columns _) Eb c df Hin Hc).
  - intros stats Hs. destruct (forallb _ _) eqn:Eb; [|discriminate].
    injection Hs as <-.
    rewrite map_fst_pairs.
    split; [reflexivity | split; [exact Hnd | split; [exact Hcat|]]].
    intros c df Hdf. exists (describe_frame sqrt_f df). split.
    + unfold describe. apply dict_get_some_in in Hdf.
      pose proof (proj1 (forallb_has_columns _) Eb c df Hdf) as Hc.
      destruct (columns df); [congruence | reflexivity].
    + rewrite dict_get_pairs, Hdf. reflexivity.
Qed.

Lemma descriptive_stats_keys_witness :
  calculate_descriptive_stats sqrt_floor
    (register_all [("food", sample_food); ("water", empty_menu)]) =
    Err (ValueError "Cannot describe a DataFrame without columns").
Proof.
  apply (proj2 (proj1 (descriptive_stats_keys sqrt_floor
                         [("food", sample_food); ("water", empty_menu)]))).
  exists "water", empty_menu. split; [simpl; auto | reflexivity].
Defined.

(** The ratios never raise on a zero sum: when every [Protein] value is zero
    or missing (so that the float sum is zero as well), [fat_to_protein] is
    [nan] or [+-inf]. *)
Theorem ratios_zero_protein df :
  In "Fat" (columns df) -> In "Protein" (columns df) -> In "Carb" (columns df) ->
  (forall r v, In r (rows df) -> cell r "Protein" = Some v -> v == 0) ->
  exists v, dict_get (ratios df) "fat_to_protein" = Some v /\
            (v = VNaN \/ exists b, v = VInf b).
Proof.
  intros Hf Hp Hc Hzero.
  assert (Hz : col_sum df "Protein" == 0).
  { unfold col_sum, qsum. rewrite fold_plus_right.
    assert (Hall : forall y, In y (valid (map (fun r => cell r "Protein") (rows df))) -> y == 0).
    { intros y Hy. apply valid_in in Hy. destruct Hy as (r & Hr & Hcell).
      exact (Hzero r y Hr Hcell). }
    revert Hall. generalize (valid (map (fun r => cell r "Protein") (rows df))).
    induction l as [|a l IH]; simpl; intros Hall; [reflexivity|].
    rewrite (Hall a (or_introl eq_refl)).
    assert (H0 : 0 + fold_right Qplus 0 l == 0) by (apply IH; intros y Hy; apply Hall; right; exact Hy).
    rewrite <- H0 at 2. ring_simplify. rewrite Qplus_0_l in H0. rewrite H0. reflexivity. }
  unfold ratios.
  rewrite (proj2 (mem_In _ _) Hf), (proj2 (mem_In _ _) Hp), (proj2 (mem_In _ _) Hc).
  cbv zeta. simpl.
  eexists; split; [reflexivity|].
  unfold py_div. rewrite (proj2 (Qeq_bool_iff _ _) Hz).
  destruct (Qeq_bool (col_sum df "Fat") 0); [left; reflexivity | right; eexists; reflexivity].
Qed.

Lemma ratios_zero_protein_witness :
  In "Fat" (columns water_menu) /\ In "Protein" (columns water_menu) /\
  In "Carb" (columns water_menu) /\
  (forall r v, In r (rows water_menu) -> cell r "Protein" = Some v -> v == 0) /\
  exists v, dict_get (ratios water_menu) "fat_to_protein" = Some v /\
            (v = VNaN \/ exists b, v = VInf b).
Proof.
  assert (H1 : In "Fat" (columns water_menu)) by (simpl; auto).
  assert (H2 : In "Protein" (columns water_menu)) by (simpl; auto).
  assert (H3 : In "Carb" (columns water_menu)) by (simpl; auto).
  assert (H4 : forall r v, In r (rows water_menu) -> cell r "Protein" = Some v -> v == 0).
  { intros r v Hr Hv. simpl in Hr.
    destruct Hr as [<-|[<-|[]]]; simpl in Hv; [injection Hv as <-; reflexivity | discriminate]. }
  split; [exact H1 | split; [exact H2 | split; [exact H3 | split; [exact H4|]]]].
  exact (ratios_zero_protein water_menu H1 H2 H3 H4).
Defined.
